(** * A model of the ticket service of [src/app.py]

    The Flask application keeps two tables of "tickets" (OCR and OMC)
    and offers list/create/get/update/delete over them.  This file
    embeds the pieces the specification talks about:
    - the Python values that reach the code from form fields and JSON
      bodies ([pyval]);
    - the coercions [_to_int] and [_parse_datetime], with the parts of
      Python's [int] and [datetime.fromisoformat] they rely on;
    - [TicketBase.as_dict] with [datetime.isoformat];
    - [_get_ticket_model], [_extract_ticket_data], [_save_uploaded_image]
      and [_populate_ticket_from_request];
    - the store with the API routes and [create_tables]. *)

From Stdlib Require Import ZArith List String Ascii Bool Lia.
From Stdlib Require Import Sorting.Permutation Sorting.Sorted.
Import ListNotations.
Set Warnings "-register-all".
Open Scope string_scope.
Open Scope Z_scope.

(** ** Python values and exceptions *)

(** A [datetime.datetime]: the fields of the Python object.  [dt_tz] is
    the UTC offset of an aware datetime in microseconds ([None] for a
    naive one, as the MySQL [DATETIME] columns give back). *)
Record datetime := mk_datetime {
  dt_year : Z; dt_month : Z; dt_day : Z;
  dt_hour : Z; dt_minute : Z; dt_second : Z; dt_microsecond : Z;
  dt_tz : option Z
}.

(** The Python objects the code handles: what [json.loads] and the form
    parser produce (floats apart), plus the datetimes it builds. *)
Inductive pyval :=
| PNone
| PBool (b : bool)
| PInt (z : Z)
| PStr (s : string)
| PList (l : list pyval)
| PDict (d : list (string * pyval))
| PDateTime (d : datetime).

Inductive exn := ValueError | TypeError | AttributeError | NotFound.

Inductive result (A : Type) := Ok (a : A) | Err (e : exn).
Arguments Ok {A} a.
Arguments Err {A} e.

Definition bind {A B} (m : result A) (f : A -> result B) : result B :=
  match m with Ok a => f a | Err e => Err e end.
Notation "x <- m ;; k" := (bind m (fun x => k))
  (at level 61, m at next level, right associativity).

(** Python truthiness ([bool(v)]); a datetime is always true. *)
Definition truthy (v : pyval) : bool :=
  match v with
  | PNone => false
  | PBool b => b
  | PInt z => negb (Z.eqb z 0)
  | PStr s => negb (String.eqb s "")
  | PList l => match l with [] => false | _ => true end
  | PDict d => match d with [] => false | _ => true end
  | PDateTime _ => true
  end.

(** A Python [dict] as an association list, first binding wins. *)
Fixpoint dict_get (d : list (string * pyval)) (k : string) : pyval :=
  match d with
  | [] => PNone
  | (k', v) :: d' => if String.eqb k k' then v else dict_get d' k
  end.

Definition dict_mem (d : list (string * pyval)) (k : string) : bool :=
  existsb (fun kv => String.eqb k (fst kv)) d.

(** ** [int(str)]: Python's decimal literal syntax for [int] *)

Definition is_space (c : ascii) : bool :=
  match nat_of_ascii c with
  | 32 | 9 | 10 | 11 | 12 | 13 => true
  | _ => false
  end%nat.

Definition digit_val (c : ascii) : option Z :=
  let n := nat_of_ascii c in
  if (48 <=? n)%nat && (n <=? 57)%nat then Some (Z.of_nat n - 48) else None.

Fixpoint lstrip (s : string) : string :=
  match s with
  | String c s' => if is_space c then lstrip s' else s
  | EmptyString => EmptyString
  end.

Fixpoint rev_str (s : string) (acc : string) : string :=
  match s with
  | String c s' => rev_str s' (String c acc)
  | EmptyString => acc
  end.

Definition strip (s : string) : string :=
  rev_str (lstrip (rev_str (lstrip s) EmptyString)) EmptyString.

(** Digits with single underscores between them ([1_000]); [acc] is the
    value so far, [prev_digit] whether the previous character was a
    digit. *)
Fixpoint parse_udigits (s : string) (acc : Z) (prev_digit : bool) : option Z :=
  match s with
  | EmptyString => if prev_digit then Some acc else None
  | String c s' =>
      match digit_val c with
      | Some d => parse_udigits s' (10 * acc + d) true
      | None =>
          if Ascii.eqb c "_" then
            if prev_digit then
              match s' with
              | String c2 _ => if digit_val c2 then parse_udigits s' acc false else None
              | EmptyString => None
              end
            else None
          else None
      end
  end.

Definition int_of_str (s : string) : result Z :=
  let t := strip s in
  match t with
  | String c s' =>
      if Ascii.eqb c "-" then
        match parse_udigits s' 0 false with Some z => Ok (- z) | None => Err ValueError end
      else if Ascii.eqb c "+" then
        match parse_udigits s' 0 false with Some z => Ok z | None => Err ValueError end
      else
        match parse_udigits t 0 false with Some z => Ok z | None => Err ValueError end
  | EmptyString => Err ValueError
  end.

(** [int(value)] on the values a payload can carry. *)
Definition py_int (v : pyval) : result Z :=
  match v with
  | PInt z => Ok z
  | PBool b => Ok (if b then 1 else 0)
  | PStr s => int_of_str s
  | _ => Err TypeError
  end.

(** [_to_int]:
<<
    try:
        return int(value) if value else None
    except ValueError:
        return None
>> *)
Definition _to_int (value : pyval) : result pyval :=
  if truthy value then
    match py_int value with
    | Ok z => Ok (PInt z)
    | Err ValueError => Ok PNone
    | Err e => Err e
    end
  else Ok PNone.

(** ** [datetime.fromisoformat] and [datetime.isoformat] *)

Definition obind {A B} (m : option A) (f : A -> option B) : option B :=
  match m with Some a => f a | None => None end.
Notation "x <-? m ;; k" := (obind m (fun x => k))
  (at level 61, m at next level, right associativity).

(** Exactly [n] ASCII digits at the front of [s], read into [acc]. *)
Fixpoint parse_digits_acc (n : nat) (s : string) (acc : Z) : option (Z * string) :=
  match n with
  | O => Some (acc, s)
  | S n' =>
      match s with
      | String c s' =>
          match digit_val c with
          | Some d => parse_digits_acc n' s' (10 * acc + d)
          | None => None
          end
      | EmptyString => None
      end
  end.

Definition parse_digits (n : nat) (s : string) : option (Z * string) :=
  parse_digits_acc n s 0.

Definition expect (c : ascii) (s : string) : option string :=
  match s with
  | String c' s' => if Ascii.eqb c c' then Some s' else None
  | EmptyString => None
  end.

Definition is_leap (y : Z) : bool :=
  (y mod 4 =? 0) && (negb (y mod 100 =? 0) || (y mod 400 =? 0)).

Definition days_in_month (y m : Z) : Z :=
  if m =? 2 then (if is_leap y then 29 else 28)
  else if (m =? 4) || (m =? 6) || (m =? 9) || (m =? 11) then 30
  else 31.

(** The range checks of the [datetime] and [timezone] constructors. *)
Definition valid_datetime (d : datetime) : bool :=
  (1 <=? dt_year d) && (dt_year d <=? 9999)
  && (1 <=? dt_month d) && (dt_month d <=? 12)
  && (1 <=? dt_day d) && (dt_day d <=? days_in_month (dt_year d) (dt_month d))
  && (0 <=? dt_hour d) && (dt_hour d <=? 23)
  && (0 <=? dt_minute d) && (dt_minute d <=? 59)
  && (0 <=? dt_second d) && (dt_second d <=? 59)
  && (0 <=? dt_microsecond d) && (dt_microsecond d <=? 999999)
  && match dt_tz d with
     | None => true
     | Some off => Z.abs off <? 86400000000
     end.

(** The fractional part [.fff] or [.ffffff], in microseconds. *)
Definition parse_frac (s : string) : option (Z * string) :=
  match parse_digits 6 s with
  | Some r => Some r
  | None =>
      match parse_digits 3 s with
      | Some (f, r) => Some (f * 1000, r)
      | None => None
      end
  end.

(** [HH:MM[:SS[.ffffff]]] of a UTC offset, in microseconds. *)
Definition parse_offset (s : string) : option Z :=
  hh <-? parse_digits 2 s ;; let '(h, r) := hh in
  r <-? expect ":" r ;;
  mm <-? parse_digits 2 r ;; let '(m, r) := mm in
  match r with
  | EmptyString => Some ((h * 3600 + m * 60) * 1000000)
  | _ =>
      r <-? expect ":" r ;;
      ss <-? parse_digits 2 r ;; let '(sec, r) := ss in
      match r with
      | EmptyString => Some ((h * 3600 + m * 60 + sec) * 1000000)
      | _ =>
          r <-? expect "." r ;;
          ff <-? parse_digits 6 r ;; let '(us, r) := ff in
          match r with
          | EmptyString => Some ((h * 3600 + m * 60 + sec) * 1000000 + us)
          | _ => None
          end
      end
  end.

(** End of the time: nothing, or a signed UTC offset. *)
Definition parse_tz_end (s : string) : option (option Z) :=
  match s with
  | EmptyString => Some None
  | String c r =>
      if Ascii.eqb c "+" then obind (parse_offset r) (fun o => Some (Some o))
      else if Ascii.eqb c "-" then obind (parse_offset r) (fun o => Some (Some (- o)))
      else None
  end.

(** [HH[:MM[:SS[.fff[fff]]]]] followed by an optional offset. *)
Definition parse_time (s : string) : option (Z * Z * Z * Z * option Z) :=
  hh <-? parse_digits 2 s ;; let '(h, r) := hh in
  match expect ":" r with
  | None => tz <-? parse_tz_end r ;; Some (h, 0, 0, 0, tz)
  | Some r =>
      mm <-? parse_digits 2 r ;; let '(m, r) := mm in
      match expect ":" r with
      | None => tz <-? parse_tz_end r ;; Some (h, m, 0, 0, tz)
      | Some r =>
          ss <-? parse_digits 2 r ;; let '(sec, r) := ss in
          match expect "." r with
          | None => tz <-? parse_tz_end r ;; Some (h, m, sec, 0, tz)
          | Some r =>
              ff <-? parse_frac r ;; let '(us, r) := ff in
              tz <-? parse_tz_end r ;; Some (h, m, sec, us, tz)
          end
      end
  end.

(** [datetime.fromisoformat] on a [str], following its documented
    grammar [YYYY-MM-DD[*HH[:MM[:SS[.fff[fff]]]][+HH:MM[:SS[.ffffff]]]]]
    (Python 3.7 to 3.10), with any single separator character [*];
    [None] is the [ValueError] it raises. *)
Definition fromisoformat (s : string) : option datetime :=
  yy <-? parse_digits 4 s ;; let '(y, r) := yy in
  r <-? expect "-" r ;;
  mo <-? parse_digits 2 r ;; let '(m, r) := mo in
  r <-? expect "-" r ;;
  dd <-? parse_digits 2 r ;; let '(d, r) := dd in
  t <-? match r with
        | EmptyString => Some (0, 0, 0, 0, None)
        | String _ tstr => parse_time tstr
        end ;;
  let '(h, mi, sec, us, tz) := t in
  let dt := mk_datetime y m d h mi sec us tz in
  if valid_datetime dt then Some dt else None.

(** [_parse_datetime]:
<<
    if not value:
        return None
    try:
        return datetime.fromisoformat(value)
    except ValueError:
        return None
>>
    A value that is not a [str] makes [fromisoformat] raise [TypeError]. *)
Definition _parse_datetime (value : pyval) : result pyval :=
  if truthy value then
    match value with
    | PStr s =>
        match fromisoformat s with
        | Some d => Ok (PDateTime d)
        | None => Ok PNone
        end
    | _ => Err TypeError
    end
  else Ok PNone.

Definition digit_char (d : Z) : ascii := ascii_of_nat (Z.to_nat (48 + d)).

(** ["%0<n>d" % v] for [0 <= v < 10 ^ n]. *)
Fixpoint pad (n : nat) (v : Z) : string :=
  match n with
  | O => EmptyString
  | S n' => String (digit_char (v / 10 ^ Z.of_nat n')) (pad n' (v mod 10 ^ Z.of_nat n'))
  end.

(** [_format_offset] of Python's [datetime] module. *)
Definition format_offset (tz : option Z) : string :=
  match tz with
  | None => EmptyString
  | Some off =>
      let sign := if off <? 0 then "-" else "+" in
      let a := Z.abs off in
      let hh := a / 3600000000 in
      let mm := (a mod 3600000000) / 60000000 in
      let ss := (a mod 3600000000) mod 60000000 in
      sign ++ pad 2 hh ++ ":" ++ pad 2 mm ++
      (if ss =? 0 then EmptyString
       else ":" ++ pad 2 (ss / 1000000) ++
            (if ss mod 1000000 =? 0 then EmptyString
             else "." ++ pad 6 (ss mod 1000000)))
  end.

(** [datetime.isoformat()] with the default separator ["T"]. *)
Definition isoformat (d : datetime) : string :=
  pad 4 (dt_year d) ++ "-" ++ pad 2 (dt_month d) ++ "-" ++ pad 2 (dt_day d) ++ "T" ++
  pad 2 (dt_hour d) ++ ":" ++ pad 2 (dt_minute d) ++ ":" ++ pad 2 (dt_second d) ++
  (if dt_microsecond d =? 0 then EmptyString else "." ++ pad 6 (dt_microsecond d)) ++
  format_offset (dt_tz d).

(** ** Tickets: [TicketBase] and [as_dict] *)

(** The mapped attributes of [TicketBase].  On the Python object an
    attribute holds whatever was last assigned to it, so every field is
    a [pyval]; a row read back from the store holds [None], an [int], a
    [str] or a [datetime] according to its column type. *)
Record ticket := mk_ticket {
  id : pyval; camera_id : pyval; zone_name : pyval; camera_ip : pyval;
  zone_region : pyval; spot_number : pyval; plate_number : pyval;
  plate_code : pyval; plate_city : pyval; confidence : pyval;
  entry_time : pyval; exit_time : pyval; status : pyval;
  parkonic_trip_id : pyval; image_base64 : pyval; crop_image_path : pyval;
  entry_image_path : pyval; exit_image_path : pyval; exit_clip_path : pyval;
  created_at : pyval; process_time_in : pyval; process_time_out : pyval
}.

(** A fresh [model()]: every attribute [None]. *)
Definition empty_ticket : ticket :=
  mk_ticket PNone PNone PNone PNone PNone PNone PNone PNone PNone PNone PNone
            PNone PNone PNone PNone PNone PNone PNone PNone PNone PNone PNone.

(** The attribute names, for [getattr] and [setattr]. *)
Inductive field :=
| F_id | F_camera_id | F_zone_name | F_camera_ip | F_zone_region
| F_spot_number | F_plate_number | F_plate_code | F_plate_city | F_confidence
| F_entry_time | F_exit_time | F_status | F_parkonic_trip_id | F_image_base64
| F_crop_image_path | F_entry_image_path | F_exit_image_path | F_exit_clip_path
| F_created_at | F_process_time_in | F_process_time_out.

Scheme Equality for field.

Definition field_name (f : field) : string :=
  match f with
  | F_id => "id" | F_camera_id => "camera_id" | F_zone_name => "zone_name"
  | F_camera_ip => "camera_ip" | F_zone_region => "zone_region"
  | F_spot_number => "spot_number" | F_plate_number => "plate_number"
  | F_plate_code => "plate_code" | F_plate_city => "plate_city"
  | F_confidence => "confidence" | F_entry_time => "entry_time"
  | F_exit_time => "exit_time" | F_status => "status"
  | F_parkonic_trip_id => "parkonic_trip_id" | F_image_base64 => "image_base64"
  | F_crop_image_path => "crop_image_path" | F_entry_image_path => "entry_image_path"
  | F_exit_image_path => "exit_image_path" | F_exit_clip_path => "exit_clip_path"
  | F_created_at => "created_at" | F_process_time_in => "process_time_in"
  | F_process_time_out => "process_time_out"
  end.

Definition getattr (t : ticket) (f : field) : pyval :=
  match f with
  | F_id => id t | F_camera_id => camera_id t | F_zone_name => zone_name t
  | F_camera_ip => camera_ip t | F_zone_region => zone_region t
  | F_spot_number => spot_number t | F_plate_number => plate_number t
  | F_plate_code => plate_code t | F_plate_city => plate_city t
  | F_confidence => confidence t | F_entry_time => entry_time t
  | F_exit_time => exit_time t | F_status => status t
  | F_parkonic_trip_id => parkonic_trip_id t | F_image_base64 => image_base64 t
  | F_crop_image_path => crop_image_path t | F_entry_image_path => entry_image_path t
  | F_exit_image_path => exit_image_path t | F_exit_clip_path => exit_clip_path t
  | F_created_at => created_at t | F_process_time_in => process_time_in t
  | F_process_time_out => process_time_out t
  end.

Definition setattr (t : ticket) (f : field) (v : pyval) : ticket :=
  let '(mk_ticket a0 a1 a2 a3 a4 a5 a6 a7 a8 a9 a10 a11 a12 a13 a14 a15 a16 a17
                  a18 a19 a20 a21) := t in
  match f with
  | F_id => mk_ticket v a1 a2 a3 a4 a5 a6 a7 a8 a9 a10 a11 a12 a13 a14 a15 a16 a17 a18 a19 a20 a21
  | F_camera_id => mk_ticket a0 v a2 a3 a4 a5 a6 a7 a8 a9 a10 a11 a12 a13 a14 a15 a16 a17 a18 a19 a20 a21
  | F_zone_name => mk_ticket a0 a1 v a3 a4 a5 a6 a7 a8 a9 a10 a11 a12 a13 a14 a15 a16 a17 a18 a19 a20 a21
  | F_camera_ip => mk_ticket a0 a1 a2 v a4 a5 a6 a7 a8 a9 a10 a11 a12 a13 a14 a15 a16 a17 a18 a19 a20 a21
  | F_zone_region => mk_ticket a0 a1 a2 a3 v a5 a6 a7 a8 a9 a10 a11 a12 a13 a14 a15 a16 a17 a18 a19 a20 a21
  | F_spot_number => mk_ticket a0 a1 a2 a3 a4 v a6 a7 a8 a9 a10 a11 a12 a13 a14 a15 a16 a17 a18 a19 a20 a21
  | F_plate_number => mk_ticket a0 a1 a2 a3 a4 a5 v a7 a8 a9 a10 a11 a12 a13 a14 a15 a16 a17 a18 a19 a20 a21
  | F_plate_code => mk_ticket a0 a1 a2 a3 a4 a5 a6 v a8 a9 a10 a11 a12 a13 a14 a15 a16 a17 a18 a19 a20 a21
  | F_plate_city => mk_ticket a0 a1 a2 a3 a4 a5 a6 a7 v a9 a10 a11 a12 a13 a14 a15 a16 a17 a18 a19 a20 a21
  | F_confidence => mk_ticket a0 a1 a2 a3 a4 a5 a6 a7 a8 v a10 a11 a12 a13 a14 a15 a16 a17 a18 a19 a20 a21
  | F_entry_time => mk_ticket a0 a1 a2 a3 a4 a5 a6 a7 a8 a9 v a11 a12 a13 a14 a15 a16 a17 a18 a19 a20 a21
  | F_exit_time => mk_ticket a0 a1 a2 a3 a4 a5 a6 a7 a8 a9 a10 v a12 a13 a14 a15 a16 a17 a18 a19 a20 a21
  | F_status => mk_ticket a0 a1 a2 a3 a4 a5 a6 a7 a8 a9 a10 a11 v a13 a14 a15 a16 a17 a18 a19 a20 a21
  | F_parkonic_trip_id => mk_ticket a0 a1 a2 a3 a4 a5 a6 a7 a8 a9 a10 a11 a12 v a14 a15 a16 a17 a18 a19 a20 a21
  | F_image_base64 => mk_ticket a0 a1 a2 a3 a4 a5 a6 a7 a8 a9 a10 a11 a12 a13 v a15 a16 a17 a18 a19 a20 a21
  | F_crop_image_path => mk_ticket a0 a1 a2 a3 a4 a5 a6 a7 a8 a9 a10 a11 a12 a13 a14 v a16 a17 a18 a19 a20 a21
  | F_entry_image_path => mk_ticket a0 a1 a2 a3 a4 a5 a6 a7 a8 a9 a10 a11 a12 a13 a14 a15 v a17 a18 a19 a20 a21
  | F_exit_image_path => mk_ticket a0 a1 a2 a3 a4 a5 a6 a7 a8 a9 a10 a11 a12 a13 a14 a15 a16 v a18 a19 a20 a21
  | F_exit_clip_path => mk_ticket a0 a1 a2 a3 a4 a5 a6 a7 a8 a9 a10 a11 a12 a13 a14 a15 a16 a17 v a19 a20 a21
  | F_created_at => mk_ticket a0 a1 a2 a3 a4 a5 a6 a7 a8 a9 a10 a11 a12 a13 a14 a15 a16 a17 a18 v a20 a21
  | F_process_time_in => mk_ticket a0 a1 a2 a3 a4 a5 a6 a7 a8 a9 a10 a11 a12 a13 a14 a15 a16 a17 a18 a19 v a21
  | F_process_time_out => mk_ticket a0 a1 a2 a3 a4 a5 a6 a7 a8 a9 a10 a11 a12 a13 a14 a15 a16 a17 a18 a19 a20 v
  end.

(** [x.isoformat() if x else None]; a true value that is not a datetime
    has no [isoformat] attribute. *)
Definition iso_or_none (x : pyval) : result pyval :=
  if truthy x then
    match x with
    | PDateTime d => Ok (PStr (isoformat d))
    | _ => Err AttributeError
    end
  else Ok PNone.

(** [TicketBase.as_dict], entries in the order of the source. *)
Definition as_dict (t : ticket) : result (list (string * pyval)) :=
  et <- iso_or_none (entry_time t) ;;
  xt <- iso_or_none (exit_time t) ;;
  ca <- iso_or_none (created_at t) ;;
  pi <- iso_or_none (process_time_in t) ;;
  po <- iso_or_none (process_time_out t) ;;
  Ok [("id", id t); ("camera_id", camera_id t); ("zone_name", zone_name t);
      ("camera_ip", camera_ip t); ("zone_region", zone_region t);
      ("spot_number", spot_number t); ("plate_number", plate_number t);
      ("plate_code", plate_code t); ("plate_city", plate_city t);
      ("confidence", confidence t); ("entry_time", et); ("exit_time", xt);
      ("status", status t); ("parkonic_trip_id", parkonic_trip_id t);
      ("image_base64", image_base64 t); ("crop_image_path", crop_image_path t);
      ("entry_image_path", entry_image_path t); ("exit_image_path", exit_image_path t);
      ("exit_clip_path", exit_clip_path t); ("created_at", ca);
      ("process_time_in", pi); ("process_time_out", po)].

(** ** Request population *)

(** [_extract_ticket_data]: the payload dict, in the order of the
    source; the dict literal is evaluated entry by entry, so the first
    coercion that raises is the exception. *)
Definition _extract_ticket_data (payload : list (string * pyval))
  : result (list (field * pyval)) :=
  let g k := dict_get payload k in
  ci <- _to_int (g "camera_id") ;;
  sn <- _to_int (g "spot_number") ;;
  cf <- _to_int (g "confidence") ;;
  et <- _parse_datetime (g "entry_time") ;;
  xt <- _parse_datetime (g "exit_time") ;;
  pk <- _to_int (g "parkonic_trip_id") ;;
  pi <- _parse_datetime (g "process_time_in") ;;
  po <- _parse_datetime (g "process_time_out") ;;
  Ok [(F_camera_id, ci); (F_zone_name, g "zone_name"); (F_camera_ip, g "camera_ip");
      (F_zone_region, g "zone_region"); (F_spot_number, sn);
      (F_plate_number, g "plate_number"); (F_plate_code, g "plate_code");
      (F_plate_city, g "plate_city"); (F_confidence, cf); (F_entry_time, et);
      (F_exit_time, xt); (F_status, g "status"); (F_parkonic_trip_id, pk);
      (F_process_time_in, pi); (F_process_time_out, po);
      (F_image_base64, g "image_base64"); (F_crop_image_path, g "crop_image_path");
      (F_entry_image_path, g "entry_image_path"); (F_exit_image_path, g "exit_image_path");
      (F_exit_clip_path, g "exit_clip_path")].

Fixpoint lower (s : string) : string :=
  match s with
  | EmptyString => EmptyString
  | String c s' =>
      let n := nat_of_ascii c in
      String (if (65 <=? n)%nat && (n <=? 90)%nat then ascii_of_nat (n + 32) else c)
             (lower s')
  end.

(** The uploaded files, as a map from the path (relative to [static/])
    to the content; [upload.save] replaces what the path held. *)
Definition fs := list (string * string).

Definition fs_save (p : string) (content : string) (m : fs) : fs :=
  (p, content) :: filter (fun e => negb (String.eqb (fst e) p)) m.

Fixpoint fs_lookup (m : fs) (p : string) : option string :=
  match m with
  | [] => None
  | (p', c) :: m' => if String.eqb p p' then Some c else fs_lookup m' p
  end.

(** A [FileStorage] from [request.files]: its filename and content. *)
Record upload := mk_upload { filename : string; content : string }.

(** [strftime("%Y%m%d%H%M%S%f")] for years 1000 to 9999. *)
Definition strftime_stamp (d : datetime) : string :=
  pad 4 (dt_year d) ++ pad 2 (dt_month d) ++ pad 2 (dt_day d) ++
  pad 2 (dt_hour d) ++ pad 2 (dt_minute d) ++ pad 2 (dt_second d) ++
  pad 6 (dt_microsecond d).

(** The request as the handlers read it: [request.form.to_dict()],
    [request.get_json(silent=True)] ([None] when the body is not JSON)
    and [request.files].  Flask fills [request.files] only for a
    multipart body, whose [get_json(silent=True)] is [None]; the record
    does not tie the two. *)
Record request := mk_request {
  form : list (string * string);
  json : pyval;
  entry_image : option upload;
  exit_image : option upload;
  crop_image : option upload
}.

Section Population.

(** [werkzeug.utils.secure_filename]: any sanitiser; none of the
    properties below depends on which. *)
Variable secure_filename : string -> string.

(** [_save_uploaded_image] at the UTC clock reading [now].  The result is
    [os.path.relpath(save_path, static_root)], that is
    [uploads/<ticket_type.lower()>/<category>/<stamp>_<filename>]. *)
Definition _save_uploaded_image (up : option upload) (ticket_type category : string)
    (now : datetime) (m : fs) : option string * fs :=
  match up with
  | None => (None, m)
  | Some u =>
      if String.eqb (filename u) "" then (None, m)
      else
        let fname := match secure_filename (filename u) with
                     | EmptyString => category ++ ".jpg"
                     | f => f
                     end in
        let final_name := strftime_stamp now ++ "_" ++ fname in
        let rel := "uploads/" ++ lower ticket_type ++ "/" ++ category ++ "/" ++ final_name in
        (Some rel, fs_save rel (content u) m)
  end.

(** [{**json_data, **form_data}]: the form wins on a shared key.  A JSON
    body that is true but not an object is not a mapping. *)
Definition request_data (req : request) : result (list (string * pyval)) :=
  let form_data := map (fun kv => (fst kv, PStr (snd kv))) (form req) in
  let json_data := if truthy (json req) then json req else PDict [] in
  match json_data with
  | PDict d => Ok (app form_data d)
  | _ => Err TypeError
  end.

Definition set_payload (p : list (field * pyval)) (f : field) (v : pyval) :=
  map (fun e => if field_beq (fst e) f then (f, v) else e) p.

(** [entry_path or (payload.get(k) if k in provided_keys else getattr(ticket, k))] *)
Definition path_value (saved : option string) (data : list (string * pyval))
    (p : list (field * pyval)) (t : ticket) (f : field) : pyval :=
  match saved with
  | Some path => PStr path
  | None =>
      if dict_mem data (field_name f) then
        match find (fun e => field_beq (fst e) f) p with Some e => snd e | None => PNone end
      else getattr t f
  end.

(** [for key, value in payload.items(): if value is None and key not in
    provided_keys: value = getattr(ticket, key); setattr(ticket, key, value)] *)
Fixpoint apply_payload (data : list (string * pyval)) (p : list (field * pyval))
    (t : ticket) : ticket :=
  match p with
  | [] => t
  | (f, v) :: p' =>
      let v' := match v with
                | PNone => if dict_mem data (field_name f) then v else getattr t f
                | _ => v
                end in
      apply_payload data p' (setattr t f v')
  end.

(** [_populate_ticket_from_request]; [t1], [t2], [t3] are the clock
    readings of the three [_save_uploaded_image] calls.  Returns the
    ticket (or the exception) and the files after the call. *)
Definition _populate_ticket_from_request (t : ticket) (ticket_type : string)
    (req : request) (t1 t2 t3 : datetime) (m : fs) : result ticket * fs :=
  match request_data req with
  | Err e => (Err e, m)
  | Ok data =>
      let '(entry_path, m) := _save_uploaded_image (entry_image req) ticket_type "entry" t1 m in
      let '(exit_path, m) := _save_uploaded_image (exit_image req) ticket_type "exit" t2 m in
      let '(crop_path, m) := _save_uploaded_image (crop_image req) ticket_type "crop" t3 m in
      match _extract_ticket_data data with
      | Err e => (Err e, m)
      | Ok p =>
          let p := set_payload p F_entry_image_path
                     (path_value entry_path data p t F_entry_image_path) in
          let p := set_payload p F_exit_image_path
                     (path_value exit_path data p t F_exit_image_path) in
          let p := set_payload p F_crop_image_path
                     (path_value crop_path data p t F_crop_image_path) in
          (Ok (apply_payload data p t), m)
      end
  end.

End Population.

(** ** The store and the routes *)

Inductive model := OcrTicket | OmcTicket.

(** [_get_ticket_model]: [abort(404)] is [Err NotFound]. *)
Definition _get_ticket_model (ticket_type : string) : result model :=
  match ticket_type with
  | EmptyString => Err NotFound
  | _ =>
      let k := lower ticket_type in
      if String.eqb k "ocr" then Ok OcrTicket
      else if String.eqb k "omc" then Ok OmcTicket
      else Err NotFound
  end.

(** A table: its rows in insertion order and the next auto-increment id. *)
Record table := mk_table { rows : list ticket; next_id : Z }.
Record store := mk_store { ocr_ticket : table; omc_ticket : table }.

Definition get_table (st : store) (md : model) : table :=
  match md with OcrTicket => ocr_ticket st | OmcTicket => omc_ticket st end.

Definition put_table (st : store) (md : model) (tb : table) : store :=
  match md with
  | OcrTicket => mk_store tb (omc_ticket st)
  | OmcTicket => mk_store (ocr_ticket st) tb
  end.

(** [db.session.add(t); db.session.commit()]: the row gets the next id
    and, as [created_at] was never assigned, the column's server default
    [now()] read at [db_now].  The commit always succeeds here: a value
    the database refuses at commit time (a list in a [String] column, an
    over-long string under strict mode) is not modelled. *)
Definition insert_row (tb : table) (t : ticket) (db_now : datetime) : table * ticket :=
  let t := setattr t F_id (PInt (next_id tb)) in
  let t := match created_at t with
           | PNone => setattr t F_created_at (PDateTime db_now)
           | _ => t
           end in
  (mk_table (app (rows tb) [t]) (next_id tb + 1), t).

Definition has_id (i : Z) (t : ticket) : bool :=
  match id t with PInt j => Z.eqb i j | _ => false end.

(** [model.query.get_or_404(ticket_id)] *)
Definition get_or_404 (tb : table) (i : Z) : result ticket :=
  match find (has_id i) (rows tb) with Some t => Ok t | None => Err NotFound end.

(** The commit of an update; as for [insert_row], a value the database
    refuses at commit time is not modelled. *)
Definition replace_row (tb : table) (i : Z) (t : ticket) : table :=
  mk_table (map (fun r => if has_id i r then t else r) (rows tb)) (next_id tb).

Definition delete_row (tb : table) (i : Z) : table :=
  mk_table (filter (fun r => negb (has_id i r)) (rows tb)) (next_id tb).

(** The sort key of [created_at] ([DATETIME] compares field by field). *)
Definition created_key (t : ticket) : Z :=
  match created_at t with
  | PDateTime d =>
      ((((((dt_year d * 100 + dt_month d) * 100 + dt_day d) * 100 + dt_hour d) * 100
         + dt_minute d) * 100 + dt_second d) * 1000000 + dt_microsecond d)
  | _ => 0
  end.

Fixpoint insert_desc (x : ticket) (l : list ticket) : list ticket :=
  match l with
  | [] => [x]
  | y :: l' => if created_key y <? created_key x then x :: l else y :: insert_desc x l'
  end.

(** [model.query.order_by(model.created_at.desc()).all()]: the store's
    sort, rows of equal [created_at] in some order (here an insertion
    sort). *)
Fixpoint order_by_created_desc (l : list ticket) : list ticket :=
  match l with
  | [] => []
  | x :: l' => insert_desc x (order_by_created_desc l')
  end.

Fixpoint map_result {A B} (f : A -> result B) (l : list A) : result (list B) :=
  match l with
  | [] => Ok []
  | x :: l' => y <- f x ;; ys <- map_result f l' ;; Ok (y :: ys)
  end.

Definition as_dict_val (t : ticket) : result pyval :=
  d <- as_dict t ;; Ok (PDict d).

(** [GET /<ticket_type>/tickets]: the tickets handed to the template. *)
Definition list_tickets (st : store) (ticket_type : string) : result (list ticket) :=
  md <- _get_ticket_model ticket_type ;;
  Ok (order_by_created_desc (rows (get_table st md))).

(** [GET /api/<ticket_type>/tickets] *)
Definition api_list_get (st : store) (ticket_type : string) : result (pyval * Z) :=
  md <- _get_ticket_model ticket_type ;;
  ds <- map_result as_dict_val (order_by_created_desc (rows (get_table st md))) ;;
  Ok (PList ds, 200).

Section Routes.

Variable secure_filename : string -> string.

(** A route's outcome: the response (or the exception, [NotFound] for a
    404), the store after the commit (unchanged when the handler raised)
    and the uploaded files. *)
Definition outcome := (result (pyval * Z) * store * fs)%type.

(** [POST /api/<ticket_type>/tickets] *)
Definition api_create (st : store) (m : fs) (ticket_type : string) (req : request)
    (t1 t2 t3 db_now : datetime) : outcome :=
  match _get_ticket_model ticket_type with
  | Err e => (Err e, st, m)
  | Ok md =>
      let '(r, m) := _populate_ticket_from_request secure_filename empty_ticket
                       ticket_type req t1 t2 t3 m in
      match r with
      | Err e => (Err e, st, m)
      | Ok t =>
          let '(tb, t) := insert_row (get_table st md) t db_now in
          match as_dict_val t with
          | Ok v => (Ok (v, 201), put_table st md tb, m)
          | Err e => (Err e, put_table st md tb, m)
          end
      end
  end.

(** [GET /api/<ticket_type>/tickets/<id>] *)
Definition api_get (st : store) (m : fs) (ticket_type : string) (i : Z) : outcome :=
  match _get_ticket_model ticket_type with
  | Err e => (Err e, st, m)
  | Ok md =>
      match get_or_404 (get_table st md) i with
      | Err e => (Err e, st, m)
      | Ok t => (bind (as_dict_val t) (fun v => Ok (v, 200)), st, m)
      end
  end.

(** [PUT /api/<ticket_type>/tickets/<id>] *)
Definition api_update (st : store) (m : fs) (ticket_type : string) (i : Z)
    (req : request) (t1 t2 t3 : datetime) : outcome :=
  match _get_ticket_model ticket_type with
  | Err e => (Err e, st, m)
  | Ok md =>
      match get_or_404 (get_table st md) i with
      | Err e => (Err e, st, m)
      | Ok t =>
          let '(r, m) := _populate_ticket_from_request secure_filename t
                           ticket_type req t1 t2 t3 m in
          match r with
          | Err e => (Err e, st, m)
          | Ok t' =>
              let st' := put_table st md (replace_row (get_table st md) i t') in
              (bind (as_dict_val t') (fun v => Ok (v, 200)), st', m)
          end
      end
  end.

(** [DELETE /api/<ticket_type>/tickets/<id>] *)
Definition api_delete (st : store) (m : fs) (ticket_type : string) (i : Z) : outcome :=
  match _get_ticket_model ticket_type with
  | Err e => (Err e, st, m)
  | Ok md =>
      match get_or_404 (get_table st md) i with
      | Err e => (Err e, st, m)
      | Ok _ => (Ok (PStr "", 204), put_table st md (delete_row (get_table st md) i), m)
      end
  end.

End Routes.

(** ** Bootstrap *)

Definition sample_ocr_ticket (now : datetime) : ticket :=
  let t := empty_ticket in
  let t := setattr t F_camera_id (PInt 101) in
  let t := setattr t F_zone_name (PStr "A1") in
  let t := setattr t F_camera_ip (PStr "192.168.0.10") in
  let t := setattr t F_zone_region (PStr "North") in
  let t := setattr t F_spot_number (PInt 12) in
  let t := setattr t F_plate_number (PStr "ABC123") in
  let t := setattr t F_plate_code (PStr "DXB") in
  let t := setattr t F_plate_city (PStr "Dubai") in
  let t := setattr t F_confidence (PInt 92) in
  let t := setattr t F_entry_time (PDateTime now) in
  let t := setattr t F_status (PStr "open") in
  setattr t F_crop_image_path (PStr "/tmp/crop.jpg").

Definition sample_omc_ticket (now : datetime) : ticket :=
  let t := empty_ticket in
  let t := setattr t F_camera_id (PInt 201) in
  let t := setattr t F_zone_name (PStr "B2") in
  let t := setattr t F_camera_ip (PStr "192.168.0.11") in
  let t := setattr t F_zone_region (PStr "South") in
  let t := setattr t F_spot_number (PInt 5) in
  let t := setattr t F_plate_number (PStr "XYZ789") in
  let t := setattr t F_plate_code (PStr "AUH") in
  let t := setattr t F_plate_city (PStr "Abu Dhabi") in
  let t := setattr t F_confidence (PInt 87) in
  let t := setattr t F_entry_time (PDateTime now) in
  let t := setattr t F_status (PStr "pending") in
  let t := setattr t F_entry_image_path (PStr "/tmp/entry.jpg") in
  setattr t F_crop_image_path (PStr "/tmp/crop.jpg").

(** [create_tables]: [db.create_all()] leaves existing rows alone; a
    table whose [query.first()] is [None] gets its sample row.  [now1]
    and [now2] are the two [datetime.utcnow()] readings, [db_now] the
    server's [now()] at the commit. *)
Definition create_tables (now1 now2 db_now : datetime) (st : store) : store :=
  let ocr := ocr_ticket st in
  let ocr := match rows ocr with
             | [] => fst (insert_row ocr (sample_ocr_ticket now1) db_now)
             | _ => ocr
             end in
  let omc := omc_ticket st in
  let omc := match rows omc with
             | [] => fst (insert_row omc (sample_omc_ticket now2) db_now)
             | _ => omc
             end in
  mk_store ocr omc.

(** An upload that [_save_uploaded_image] stores: present, with a name. *)
Definition upload_present (up : option upload) : bool :=
  match up with Some u => negb (String.eqb (filename u) "") | None => false end.

(** Whether the request carries a stored file for the path attribute [f]. *)
Definition uploaded (req : request) (f : field) : bool :=
  match f with
  | F_entry_image_path => upload_present (entry_image req)
  | F_exit_image_path => upload_present (exit_image req)
  | F_crop_image_path => upload_present (crop_image req)
  | _ => false
  end.

(** The rule of the [setattr] loop for one key. *)
Definition merge_value (data : list (string * pyval)) (f : field) (v old : pyval) : pyval :=
  match v with
  | PNone => if dict_mem data (field_name f) then v else old
  | _ => v
  end.

(** The values the coercions accept without raising: [int()] takes
    [None], [bool], [int] and [str] values (a falsy value is not passed
    to it), [fromisoformat] only [str] values. *)
Definition int_coercible (v : pyval) : bool :=
  match v with
  | PList _ | PDict _ | PDateTime _ => negb (truthy v)
  | _ => true
  end.

Definition ts_coercible (v : pyval) : bool :=
  match v with PStr _ => true | _ => negb (truthy v) end.

Definition payload_coercible (data : list (string * pyval)) : bool :=
  forallb int_coercible
    (map (dict_get data) ["camera_id"; "spot_number"; "confidence"; "parkonic_trip_id"])
  && forallb ts_coercible
    (map (dict_get data) ["entry_time"; "exit_time"; "process_time_in"; "process_time_out"]).

(** A timestamp attribute of a row read back from the store: [None] or a
    (valid) [datetime]. *)
Definition stored_timestamp (v : pyval) : bool :=
  match v with PNone => true | PDateTime d => valid_datetime d | _ => false end.

(** How [as_dict] renders a stored timestamp [v] as [out]: [None] for
    [None], else its ISO string, which [_parse_datetime] reads back to [v]. *)
Definition rendered_timestamp (v out : pyval) : Prop :=
  match v with
  | PNone => out = PNone
  | PDateTime d => out = PStr (isoformat d) /\ _parse_datetime out = Ok v
  | _ => False
  end.

(** Newer (larger [created_at]) rows first. *)
Definition newer_first (a b : ticket) : Prop := created_key b <= created_key a.

(** The fields [strftime("%Y%m%d%H%M%S%f")] prints. *)
Definition stamp_fields (d : datetime) : Z * Z * Z * Z * Z * Z * Z :=
  (dt_year d, dt_month d, dt_day d, dt_hour d, dt_minute d, dt_second d, dt_microsecond d).

(** Reading the stamp back from the front of the final name. *)
Definition parse_stamp (s : string) : option (Z * Z * Z * Z * Z * Z * Z * string) :=
  yy <-? parse_digits 4 s ;; let '(y, s) := yy in
  mo <-? parse_digits 2 s ;; let '(mo, s) := mo in
  dd <-? parse_digits 2 s ;; let '(d, s) := dd in
  hh <-? parse_digits 2 s ;; let '(h, s) := hh in
  mi <-? parse_digits 2 s ;; let '(mi, s) := mi in
  ss <-? parse_digits 2 s ;; let '(sec, s) := ss in
  us <-? parse_digits 6 s ;; let '(us, s) := us in
  Some (y, mo, d, h, mi, sec, us, s).

(** ** Configuration: [_build_database_uri] *)

(** [os.environ] as an association list, first binding wins. *)
Definition environ := list (string * string).

Fixpoint env_get (env : environ) (k : string) : option string :=
  match env with
  | [] => None
  | (k', v) :: env' => if String.eqb k k' then Some v else env_get env' k
  end.

(** Truthiness of [os.environ.get(k)]: set and non-empty. *)
Definition opt_truthy (o : option string) : bool :=
  match o with Some s => negb (String.eqb s "") | None => false end.

(** [f"{x}"] of an [Optional[str]]. *)
Definition opt_str (o : option string) : string :=
  match o with Some s => s | None => "None" end.

Inductive uri_result := UriOk (uri : string) | RuntimeError (msg : string).

(** [_build_database_uri] ([app_root] is not read). *)
Definition _build_database_uri (env : environ) : uri_result :=
  let env_url := env_get env "DATABASE_URL" in
  if opt_truthy env_url then
    if String.prefix "mysql" (opt_str env_url) then UriOk (opt_str env_url)
    else RuntimeError "DATABASE_URL must point to a MySQL database"
  else
    let mysql_host := env_get env "MYSQL_HOST" in
    let mysql_db := env_get env "MYSQL_DATABASE" in
    let mysql_user := env_get env "MYSQL_USER" in
    let mysql_password := env_get env "MYSQL_PASSWORD" in
    let mysql_port := match env_get env "MYSQL_PORT" with Some p => p | None => "3306" end in
    if opt_truthy mysql_host && opt_truthy mysql_db && opt_truthy mysql_user then
      let password := if opt_truthy mysql_password then ":" ++ opt_str mysql_password else "" in
      UriOk ("mysql+pymysql://" ++ opt_str mysql_user ++ password ++ "@" ++ opt_str mysql_host
             ++ ":" ++ mysql_port ++ "/" ++ opt_str mysql_db)
    else
      RuntimeError ("MySQL configuration missing. Set DATABASE_URL or MYSQL_HOST, MYSQL_DATABASE, "
                    ++ "and MYSQL_USER to connect to MySQL.").

(** ** Labels, template helpers and the HTML routes *)

(** [_ticket_label] *)
Definition _ticket_label (ticket_type : string) : string :=
  if String.eqb (lower ticket_type) "ocr" then "OCR" else "OMC".

(** [path.lstrip("/")] *)
Fixpoint lstrip_slash (s : string) : string :=
  match s with
  | String c s' => if Ascii.eqb c "/" then lstrip_slash s' else s
  | EmptyString => EmptyString
  end.

Section Templates.

(** [url_for("static", filename=...)]: any URL builder. *)
Variable url_for_static : string -> string.

(** [image_url] of [register_template_utils]; a true value that is not a
    [str] has no [startswith]. *)
Definition image_url (path : pyval) : result pyval :=
  if truthy path then
    match path with
    | PStr s =>
        if String.prefix "http://" s || String.prefix "https://" s then Ok (PStr s)
        else Ok (PStr (url_for_static (lstrip_slash s)))
    | _ => Err AttributeError
    end
  else Ok PNone.

End Templates.

(** What an HTML route answers: [redirect(url_for("list_tickets",
    ticket_type=...))] or [render_template("ticket_form.html", ...)]. *)
Inductive page :=
| RedirectList (ticket_type : string)
| RenderForm (t : option ticket) (ticket_type label : string).

(** The response with the [flash]ed (message, category) pairs, the store
    and the files. *)
Definition html_outcome := (result (page * list (string * string)) * store * fs)%type.

Section HtmlRoutes.

Variable secure_filename : string -> string.

(** [POST /<ticket_type>/tickets/new] *)
Definition create_ticket_post (st : store) (m : fs) (ticket_type : string) (req : request)
    (t1 t2 t3 db_now : datetime) : html_outcome :=
  match _get_ticket_model ticket_type with
  | Err e => (Err e, st, m)
  | Ok md =>
      let '(r, m) := _populate_ticket_from_request secure_filename empty_ticket
                       ticket_type req t1 t2 t3 m in
      match r with
      | Err e => (Err e, st, m)
      | Ok t =>
          let '(tb, _) := insert_row (get_table st md) t db_now in
          (Ok (RedirectList ticket_type,
               [(_ticket_label ticket_type ++ " ticket created", "success")]),
           put_table st md tb, m)
      end
  end.

(** [GET /<ticket_type>/tickets/<id>/edit] *)
Definition edit_ticket_get (st : store) (ticket_type : string) (i : Z) : result page :=
  md <- _get_ticket_model ticket_type ;;
  t <- get_or_404 (get_table st md) i ;;
  Ok (RenderForm (Some t) ticket_type (_ticket_label ticket_type)).

(** [POST /<ticket_type>/tickets/<id>/edit] *)
Definition edit_ticket_post (st : store) (m : fs) (ticket_type : string) (i : Z)
    (req : request) (t1 t2 t3 : datetime) : html_outcome :=
  match _get_ticket_model ticket_type with
  | Err e => (Err e, st, m)
  | Ok md =>
      match get_or_404 (get_table st md) i with
      | Err e => (Err e, st, m)
      | Ok t =>
          let '(r, m) := _populate_ticket_from_request secure_filename t
                           ticket_type req t1 t2 t3 m in
          match r with
          | Err e => (Err e, st, m)
          | Ok t' =>
              (Ok (RedirectList ticket_type,
                   [(_ticket_label ticket_type ++ " ticket updated", "success")]),
               put_table st md (replace_row (get_table st md) i t'), m)
          end
      end
  end.

(** [POST /<ticket_type>/tickets/<id>/delete] *)
Definition delete_ticket (st : store) (m : fs) (ticket_type : string) (i : Z) : html_outcome :=
  match _get_ticket_model ticket_type with
  | Err e => (Err e, st, m)
  | Ok md =>
      match get_or_404 (get_table st md) i with
      | Err e => (Err e, st, m)
      | Ok _ =>
          (Ok (RedirectList ticket_type,
               [(_ticket_label ticket_type ++ " ticket deleted", "info")]),
           put_table st md (delete_row (get_table st md) i), m)
      end
  end.

End HtmlRoutes.

(** The store and the files a route leaves behind. *)
Definition effect {A : Type} (o : result A * store * fs) : store * fs :=
  (snd (fst o), snd o).

(** ** [create_database.generate_sql_dump] *)

Definition DUMP_FILENAME := "Dump_parkonic_tickets.sql".
Definition DATABASE_NAME := "parkonic_tickets".

(** [strftime("%Y-%m-%d %H:%M:%S")] for years 1000 to 9999. *)
Definition strftime_sql (d : datetime) : string :=
  pad 4 (dt_year d) ++ "-" ++ pad 2 (dt_month d) ++ "-" ++ pad 2 (dt_day d) ++ " " ++
  pad 2 (dt_hour d) ++ ":" ++ pad 2 (dt_minute d) ++ ":" ++ pad 2 (dt_second d).

(** [generate_sql_dump] at the clock reading [now]: the f-string, with
    [\t] as the character 9. *)
Definition generate_sql_dump (now : datetime) : string :=
  let timestamp_str := strftime_sql now in
  "-- MySQL dump 10.13  Distrib 8.0.xx, for Win64 (x86_64)
--
-- Host: localhost    Database: "
  ++ DATABASE_NAME
  ++ "
-- ------------------------------------------------------
-- Server version"
  ++ String "009"%char ""
  ++ "8.0.xx

/*!40101 SET @OLD_CHARACTER_SET_CLIENT=@@CHARACTER_SET_CLIENT */;
/*!40101 SET @OLD_CHARACTER_SET_RESULTS=@@CHARACTER_SET_RESULTS */;
/*!40101 SET @OLD_COLLATION_CONNECTION=@@COLLATION_CONNECTION */;
/*!50503 SET NAMES utf8 */;
/*!40103 SET @OLD_TIME_ZONE=@@TIME_ZONE */;
/*!40103 SET TIME_ZONE='+00:00' */;
/*!40014 SET @OLD_UNIQUE_CHECKS=@@UNIQUE_CHECKS, UNIQUE_CHECKS=0 */;
/*!40014 SET @OLD_FOREIGN_KEY_CHECKS=@@FOREIGN_KEY_CHECKS, FOREIGN_KEY_CHECKS=0 */;
/*!40101 SET @OLD_SQL_MODE=@@SQL_MODE, SQL_MODE='NO_AUTO_VALUE_ON_ZERO' */;
/*!40111 SET @OLD_SQL_NOTES=@@SQL_NOTES, SQL_NOTES=0 */;

--
-- Database structure for database `"
  ++ DATABASE_NAME
  ++ "`
--

CREATE DATABASE IF NOT EXISTS `"
  ++ DATABASE_NAME
  ++ "`
  CHARACTER SET utf8mb4
  COLLATE utf8mb4_unicode_ci;

USE `"
  ++ DATABASE_NAME
  ++ "`;

--
-- Table structure for table `omc_ticket`
--

DROP TABLE IF EXISTS `omc_ticket`;

/*!40101 SET @saved_cs_client     = @@character_set_client */;
/*!50503 SET character_set_client = utf8mb4 */;
CREATE TABLE `omc_ticket` (
  `id` int unsigned NOT NULL AUTO_INCREMENT,
  `camera_id` int DEFAULT NULL,
  `zone_name` varchar(50) DEFAULT NULL,
  `camera_ip` varchar(45) DEFAULT NULL,
  `zone_region` varchar(50) DEFAULT NULL,
  `spot_number` int DEFAULT NULL,
  `plate_number` varchar(20) DEFAULT NULL,
  `plate_code` varchar(10) DEFAULT NULL,
  `plate_city` varchar(50) DEFAULT NULL,
  `confidence` int DEFAULT NULL,
  `entry_time` datetime DEFAULT NULL,
  `exit_time` datetime DEFAULT NULL,
  `status` varchar(20) DEFAULT NULL,
  `parkonic_trip_id` int DEFAULT NULL,
  `image_base64` longtext,
  `crop_image_path` varchar(255) DEFAULT NULL,
  `entry_image_path` varchar(255) DEFAULT NULL,
  `exit_image_path` varchar(255) DEFAULT NULL,
  `exit_clip_path` varchar(255) DEFAULT NULL,
  `created_at` datetime NOT NULL DEFAULT CURRENT_TIMESTAMP,
  `process_time_in` datetime DEFAULT NULL,
  `process_time_out` datetime DEFAULT NULL,
  PRIMARY KEY (`id`),
  KEY `idx_camera_time` (`camera_id`,`entry_time`),
  KEY `idx_plate` (`plate_number`,`plate_code`),
  KEY `idx_trip` (`parkonic_trip_id`),
  KEY `idx_zone` (`zone_name`,`zone_region`)
) ENGINE=InnoDB DEFAULT CHARSET=utf8mb4 COLLATE=utf8mb4_unicode_ci;
/*!40101 SET character_set_client = @saved_cs_client */;

--
-- Table structure for table `ocr_ticket`
--

DROP TABLE IF EXISTS `ocr_ticket`;

/*!40101 SET @saved_cs_client     = @@character_set_client */;
/*!50503 SET character_set_client = utf8mb4 */;
CREATE TABLE `ocr_ticket` (
  `id` int unsigned NOT NULL AUTO_INCREMENT,
  `camera_id` int DEFAULT NULL,
  `zone_name` varchar(50) DEFAULT NULL,
  `camera_ip` varchar(45) DEFAULT NULL,
  `zone_region` varchar(50) DEFAULT NULL,
  `spot_number` int DEFAULT NULL,
  `plate_number` varchar(20) DEFAULT NULL,
  `plate_code` varchar(10) DEFAULT NULL,
  `plate_city` varchar(50) DEFAULT NULL,
  `confidence` int DEFAULT NULL,
  `entry_time` datetime DEFAULT NULL,
  `exit_time` datetime DEFAULT NULL,
  `status` varchar(20) DEFAULT NULL,
  `parkonic_trip_id` int DEFAULT NULL,
  `image_base64` longtext,
  `crop_image_path` varchar(255) DEFAULT NULL,
  `entry_image_path` varchar(255) DEFAULT NULL,
  `exit_image_path` varchar(255) DEFAULT NULL,
  `exit_clip_path` varchar(255) DEFAULT NULL,
  `created_at` datetime NOT NULL DEFAULT CURRENT_TIMESTAMP,
  `process_time_in` datetime DEFAULT NULL,
  `process_time_out` datetime DEFAULT NULL,
  PRIMARY KEY (`id`),
  KEY `idx_camera_time` (`camera_id`,`entry_time`),
  KEY `idx_plate` (`plate_number`,`plate_code`),
  KEY `idx_trip` (`parkonic_trip_id`),
  KEY `idx_zone` (`zone_name`,`zone_region`)
) ENGINE=InnoDB DEFAULT CHARSET=utf8mb4 COLLATE=utf8mb4_unicode_ci;
/*!40101 SET character_set_client = @saved_cs_client */;

/*!40103 SET TIME_ZONE=@OLD_TIME_ZONE */;

/*!40101 SET SQL_MODE=@OLD_SQL_MODE */;
/*!40014 SET FOREIGN_KEY_CHECKS=@OLD_FOREIGN_KEY_CHECKS */;
/*!40014 SET UNIQUE_CHECKS=@OLD_UNIQUE_CHECKS */;
/*!40101 SET CHARACTER_SET_CLIENT=@OLD_CHARACTER_SET_CLIENT */;
/*!40101 SET CHARACTER_SET_RESULTS=@OLD_CHARACTER_SET_RESULTS */;
/*!40101 SET COLLATION_CONNECTION=@OLD_COLLATION_CONNECTION */;
/*!40111 SET SQL_NOTES=@OLD_SQL_NOTES */;

-- Dump completed on "
  ++ timestamp_str
  ++ "
".

(** The column declarations of [TicketBase], in order. *)
Inductive coltype := CInteger | CString (n : Z) | CText | CDateTime.

Record column := mk_column {
  col_name : string; col_type : coltype;
  primary_key : bool; nullable : bool; server_default_now : bool
}.

Definition ticket_base_columns : list column :=
  [mk_column "id" CInteger true false false;
   mk_column "camera_id" CInteger false true false;
   mk_column "zone_name" (CString 50) false true false;
   mk_column "camera_ip" (CString 45) false true false;
   mk_column "zone_region" (CString 50) false true false;
   mk_column "spot_number" CInteger false true false;
   mk_column "plate_number" (CString 20) false true false;
   mk_column "plate_code" (CString 10) false true false;
   mk_column "plate_city" (CString 50) false true false;
   mk_column "confidence" CInteger false true false;
   mk_column "entry_time" CDateTime false true false;
   mk_column "exit_time" CDateTime false true false;
   mk_column "status" (CString 20) false true false;
   mk_column "parkonic_trip_id" CInteger false true false;
   mk_column "image_base64" CText false true false;
   mk_column "crop_image_path" (CString 255) false true false;
   mk_column "entry_image_path" (CString 255) false true false;
   mk_column "exit_image_path" (CString 255) false true false;
   mk_column "exit_clip_path" (CString 255) false true false;
   mk_column "created_at" CDateTime false false true;
   mk_column "process_time_in" CDateTime false true false;
   mk_column "process_time_out" CDateTime false true false].

(** Every attribute of the ticket record, in declaration order. *)
Definition all_fields : list field :=
  [F_id; F_camera_id; F_zone_name; F_camera_ip; F_zone_region; F_spot_number;
   F_plate_number; F_plate_code; F_plate_city; F_confidence; F_entry_time;
   F_exit_time; F_status; F_parkonic_trip_id; F_image_base64; F_crop_image_path;
   F_entry_image_path; F_exit_image_path; F_exit_clip_path; F_created_at;
   F_process_time_in; F_process_time_out].

(** Reading the table definitions back from a dump: the [CREATE TABLE]
    lines, the column lines (whether they say [NOT NULL] and
    [DEFAULT CURRENT_TIMESTAMP]) and the [PRIMARY KEY] lines. *)
Inductive ddl_item :=
  | DTable (name : string)
  | DColumn (name : string) (not_null default_now : bool)
  | DPrimaryKey (name : string).

Fixpoint after_prefix (p s : string) : option string :=
  match p, s with
  | EmptyString, _ => Some s
  | String a p', String b s' => if Ascii.eqb a b then after_prefix p' s' else None
  | String _ _, EmptyString => None
  end.

Fixpoint upto_backtick (s : string) : string :=
  match s with
  | EmptyString => EmptyString
  | String c s' => if Ascii.eqb c "`" then EmptyString else String c (upto_backtick s')
  end.

Fixpoint contains (p s : string) : bool :=
  String.prefix p s || match s with EmptyString => false | String _ s' => contains p s' end.

Definition line_item (l : string) : list ddl_item :=
  match after_prefix "CREATE TABLE `" l with
  | Some r => [DTable (upto_backtick r)]
  | None =>
      match after_prefix "  `" l with
      | Some r => [DColumn (upto_backtick r) (contains "NOT NULL" l)
                           (contains "DEFAULT CURRENT_TIMESTAMP" l)]
      | None =>
          match after_prefix "  PRIMARY KEY (`" l with
          | Some r => [DPrimaryKey (upto_backtick r)]
          | None => []
          end
      end
  end.

Definition newline : ascii := "010".

(** The items of the lines of [s]; [cur] is the current line, reversed. *)
Fixpoint scan_lines (s cur : string) : list ddl_item :=
  match s with
  | EmptyString => line_item (rev_str cur "")
  | String c s' =>
      if Ascii.eqb c newline then app (line_item (rev_str cur "")) (scan_lines s' "")
      else scan_lines s' (String c cur)
  end.

Definition dump_schema (s : string) : list ddl_item := scan_lines s "".

(** What [TicketBase] declares for a table [name]: its columns in
    order, [NOT NULL] where [nullable=False], the server default [now()],
    and the primary key. *)
Definition column_item (c : column) : ddl_item :=
  DColumn (col_name c) (negb (nullable c)) (server_default_now c).

Definition model_schema (name : string) : list ddl_item :=
  DTable name :: app (map column_item ticket_base_columns)
    (map (fun c => DPrimaryKey (col_name c)) (filter primary_key ticket_base_columns)).

Fixpoint no_newline (s : string) : bool :=
  match s with
  | EmptyString => true
  | String c s' => negb (Ascii.eqb c newline) && no_newline s'
  end.

(** [x ++ r], named so that a proof can keep the last line of a text apart. *)
Definition tail_with (x r : string) : string := (x ++ r)%string.

(** ** Store invariants *)

(** An id the table has handed out: an [int] below [next_id]. *)
Definition id_below (n : Z) (v : pyval) : Prop := exists j, v = PInt j /\ j < n.

(** The ids of a table: handed out by it, and pairwise distinct. *)
Definition ids_ok (tb : table) : Prop :=
  Forall (id_below (next_id tb)) (map id (rows tb)) /\ NoDup (map id (rows tb)).

(** A [DATETIME] column's value: [None] or a [datetime]. *)
Definition ts_ok (v : pyval) : bool :=
  match v with PNone | PDateTime _ => true | _ => false end.

Definition row_ok (t : ticket) : bool :=
  forallb ts_ok [entry_time t; exit_time t; created_at t; process_time_in t; process_time_out t].

Definition table_ok (tb : table) : Prop :=
  ids_ok tb /\ Forall (fun t => row_ok t = true) (rows tb).

Definition store_ok (st : store) : Prop :=
  table_ok (ocr_ticket st) /\ table_ok (omc_ticket st).

Definition empty_store : store := mk_store (mk_table [] 1) (mk_table [] 1).

(** * Properties *)

(** ** Attributes *)

Lemma field_beq_true (f g : field) : field_beq f g = true <-> f = g.
Proof. destruct f, g; simpl; split; congruence. Qed.

Lemma field_beq_refl (f : field) : field_beq f f = true.
Proof. apply field_beq_true; reflexivity. Qed.

Lemma field_beq_false (f g : field) : f <> g -> field_beq f g = false.
Proof.
  intros Hne. destruct (field_beq f g) eqn:E; [|reflexivity].
  apply field_beq_true in E. contradiction.
Qed.

Lemma getattr_setattr_same (t : ticket) (f : field) (v : pyval) :
  getattr (setattr t f v) f = v.
Proof. destruct t, f; reflexivity. Qed.

Lemma getattr_setattr_other (t : ticket) (f g : field) (v : pyval) :
  f <> g -> getattr (setattr t f v) g = getattr t g.
Proof. destruct t, f, g; simpl; intros H; congruence. Qed.

Lemma find_key_none (f : field) (p : list (field * pyval)) :
  ~ In f (map fst p) -> find (fun e => field_beq (fst e) f) p = None.
Proof.
  induction p as [|[g v] p IH]; simpl; intros Hn; [reflexivity|].
  rewrite field_beq_false by (intros ->; apply Hn; left; reflexivity).
  apply IH. intros Hi; apply Hn; right; exact Hi.
Qed.

(** Each key of a payload with distinct keys is assigned once, by the
    rule [merge_value]; any other attribute is left alone. *)
Lemma apply_payload_get (data : list (string * pyval)) (p : list (field * pyval))
    (t : ticket) (f : field) :
  NoDup (map fst p) ->
  getattr (apply_payload data p t) f =
    match find (fun e => field_beq (fst e) f) p with
    | Some e => merge_value data f (snd e) (getattr t f)
    | None => getattr t f
    end.
Proof.
  revert t. induction p as [|[g v] p IH]; intros t Hnd; simpl; [reflexivity|].
  inversion Hnd as [|x l Hnotin Hnd' Heq]; subst.
  rewrite IH by exact Hnd'.
  destruct (field_beq g f) eqn:E.
  - apply field_beq_true in E; subst g.
    rewrite find_key_none by exact Hnotin.
    rewrite getattr_setattr_same. destruct v; reflexivity.
  - assert (g <> f) as Hne by (intros ->; rewrite field_beq_refl in E; discriminate).
    rewrite getattr_setattr_other by exact Hne. reflexivity.
Qed.

Lemma dict_mem_false_get (d : list (string * pyval)) (k : string) :
  dict_mem d k = false -> dict_get d k = PNone.
Proof.
  induction d as [|[k' v] d IH]; simpl; [reflexivity|].
  destruct (String.eqb k k'); simpl; [discriminate|exact IH].
Qed.

(** ** Payload extraction *)

Lemma extract_shape (data : list (string * pyval)) (p : list (field * pyval)) :
  _extract_ticket_data data = Ok p ->
  exists ci sn cf et xt pk pi po,
    _to_int (dict_get data "camera_id") = Ok ci /\
    _to_int (dict_get data "spot_number") = Ok sn /\
    _to_int (dict_get data "confidence") = Ok cf /\
    _parse_datetime (dict_get data "entry_time") = Ok et /\
    _parse_datetime (dict_get data "exit_time") = Ok xt /\
    _to_int (dict_get data "parkonic_trip_id") = Ok pk /\
    _parse_datetime (dict_get data "process_time_in") = Ok pi /\
    _parse_datetime (dict_get data "process_time_out") = Ok po /\
    let g k := dict_get data k in
    p = [(F_camera_id, ci); (F_zone_name, g "zone_name"); (F_camera_ip, g "camera_ip");
         (F_zone_region, g "zone_region"); (F_spot_number, sn);
         (F_plate_number, g "plate_number"); (F_plate_code, g "plate_code");
         (F_plate_city, g "plate_city"); (F_confidence, cf); (F_entry_time, et);
         (F_exit_time, xt); (F_status, g "status"); (F_parkonic_trip_id, pk);
         (F_process_time_in, pi); (F_process_time_out, po);
         (F_image_base64, g "image_base64"); (F_crop_image_path, g "crop_image_path");
         (F_entry_image_path, g "entry_image_path"); (F_exit_image_path, g "exit_image_path");
         (F_exit_clip_path, g "exit_clip_path")].
Proof.
  unfold _extract_ticket_data.
  destruct (_to_int (dict_get data "camera_id")) as [ci|] eqn:E1; simpl; [|discriminate].
  destruct (_to_int (dict_get data "spot_number")) as [sn|] eqn:E2; simpl; [|discriminate].
  destruct (_to_int (dict_get data "confidence")) as [cf|] eqn:E3; simpl; [|discriminate].
  destruct (_parse_datetime (dict_get data "entry_time")) as [et|] eqn:E4; simpl; [|discriminate].
  destruct (_parse_datetime (dict_get data "exit_time")) as [xt|] eqn:E5; simpl; [|discriminate].
  destruct (_to_int (dict_get data "parkonic_trip_id")) as [pk|] eqn:E6; simpl; [|discriminate].
  destruct (_parse_datetime (dict_get data "process_time_in")) as [pi|] eqn:E7; simpl; [|discriminate].
  destruct (_parse_datetime (dict_get data "process_time_out")) as [po|] eqn:E8; simpl; [|discriminate].
  intros H; injection H as <-.
  exists ci, sn, cf, et, xt, pk, pi, po. repeat split; assumption.
Qed.

Lemma to_int_none : _to_int PNone = Ok PNone.
Proof. reflexivity. Qed.

Lemma parse_datetime_none : _parse_datetime PNone = Ok PNone.
Proof. reflexivity. Qed.

Lemma save_none (sf : string -> string) (up : option upload) (tt cat : string)
    (now : datetime) (m : fs) :
  upload_present up = false -> fst (_save_uploaded_image sf up tt cat now m) = None.
Proof.
  destruct up as [u|]; simpl; [|reflexivity].
  destruct (String.eqb (filename u) "") eqn:E; simpl; [reflexivity|discriminate].
Qed.

(** ** Request population *)

Lemma populate_unfold (sf : string -> string) (t : ticket) (tt : string) (req : request)
    (t1 t2 t3 : datetime) (m : fs) (data : list (string * pyval)) (t' : ticket) :
  request_data req = Ok data ->
  fst (_populate_ticket_from_request sf t tt req t1 t2 t3 m) = Ok t' ->
  exists e1 e2 e3 p,
    fst (_save_uploaded_image sf (entry_image req) tt "entry" t1 m) = e1 /\
    (forall m', fst (_save_uploaded_image sf (exit_image req) tt "exit" t2 m') = e2) /\
    (forall m', fst (_save_uploaded_image sf (crop_image req) tt "crop" t3 m') = e3) /\
    _extract_ticket_data data = Ok p /\
    let p1 := set_payload p F_entry_image_path (path_value e1 data p t F_entry_image_path) in
    let p2 := set_payload p1 F_exit_image_path (path_value e2 data p1 t F_exit_image_path) in
    let p3 := set_payload p2 F_crop_image_path (path_value e3 data p2 t F_crop_image_path) in
    t' = apply_payload data p3 t.
Proof.
  intros Hd. unfold _populate_ticket_from_request. rewrite Hd.
  destruct (_save_uploaded_image sf (entry_image req) tt "entry" t1 m) as [e1 m1] eqn:S1.
  destruct (_save_uploaded_image sf (exit_image req) tt "exit" t2 m1) as [e2 m2] eqn:S2.
  destruct (_save_uploaded_image sf (crop_image req) tt "crop" t3 m2) as [e3 m3] eqn:S3.
  destruct (_extract_ticket_data data) as [p|ex] eqn:X; simpl; [|discriminate].
  intros H; injection H as <-.
  exists e1, e2, e3, p. split; [reflexivity|]. split; [|split; [|split; [exact eq_refl|reflexivity]]].
  - intros m'. replace e2 with (fst (_save_uploaded_image sf (exit_image req) tt "exit" t2 m1))
      by (rewrite S2; reflexivity).
    unfold _save_uploaded_image. destruct (exit_image req) as [u|]; [|reflexivity].
    destruct (String.eqb (filename u) ""); reflexivity.
  - intros m'. replace e3 with (fst (_save_uploaded_image sf (crop_image req) tt "crop" t3 m2))
      by (rewrite S3; reflexivity).
    unfold _save_uploaded_image. destruct (crop_image req) as [u|]; [|reflexivity].
    destruct (String.eqb (filename u) ""); reflexivity.
Qed.


(** The attribute [f] after the loop, when no file is uploaded for it:
    kept when its key is absent, [None] when the key is bound to [None]. *)
Lemma populate_get (sf : string -> string) (t : ticket) (tt : string) (req : request)
    (t1 t2 t3 : datetime) (m : fs) (data : list (string * pyval)) (t' : ticket)
    (f : field) :
  request_data req = Ok data ->
  fst (_populate_ticket_from_request sf t tt req t1 t2 t3 m) = Ok t' ->
  uploaded req f = false ->
  f <> F_id -> f <> F_created_at ->
  (dict_mem data (field_name f) = false -> getattr t' f = getattr t f) /\
  (dict_mem data (field_name f) = true -> dict_get data (field_name f) = PNone ->
   getattr t' f = PNone).
Proof.
  intros Hd Hp Hup Hid Hca.
  destruct (populate_unfold sf t tt req t1 t2 t3 m data t' Hd Hp)
    as (e1 & e2 & e3 & p & S1 & S2 & S3 & X & Ht').
  destruct (extract_shape data p X)
    as (ci & sn & cf & et & xt & pk & pi & po & E1 & E2 & E3 & E4 & E5 & E6 & E7 & E8 & Hp').
  cbv zeta in Hp'. subst p. cbv zeta in Ht'. subst t'. clear Hp Hd X.
  rewrite apply_payload_get
    by (simpl; repeat constructor; simpl; intuition discriminate).
  destruct f; simpl in Hup |- *; try (exfalso; congruence).
  all: try (specialize (S3 m); rewrite (save_none _ _ _ _ _ _ Hup) in S3; subst e3).
  all: try (rewrite (save_none _ _ _ _ _ _ Hup) in S1; subst e1).
  all: try (specialize (S2 m); rewrite (save_none _ _ _ _ _ _ Hup) in S2; subst e2).
    all: unfold merge_value, path_value; simpl.
  all: split; [intros Hm; rewrite ?Hm; pose proof (dict_mem_false_get _ _ Hm) as Hg
              | intros Hm Hg; rewrite ?Hm]; rewrite ?Hg in *;
    repeat match goal with
           | H : _to_int PNone = Ok _ |- _ => rewrite to_int_none in H; injection H as <-
           | H : _parse_datetime PNone = Ok _ |- _ =>
               rewrite parse_datetime_none in H; injection H as <-
           end; simpl.
  all: try congruence.
  all: match goal with |- context [match ?x with PNone => _ | _ => _ end] => destruct x end;
       simpl; reflexivity.
Qed.


(** [int(str)] raises nothing but [ValueError]. *)
Lemma int_of_str_cases (s : string) :
  (exists z, int_of_str s = Ok z) \/ int_of_str s = Err ValueError.
Proof.
  unfold int_of_str. destruct (strip s) as [|c s']; [right; reflexivity|].
  destruct (Ascii.eqb c "-"); [|destruct (Ascii.eqb c "+")];
    match goal with |- context [match ?x with Some _ => _ | None => _ end] => destruct x end;
    eauto.
Qed.

Lemma to_int_ok (v : pyval) : int_coercible v = true -> exists r, _to_int v = Ok r.
Proof.
  intros H. unfold _to_int. destruct (truthy v) eqn:T; [|eauto].
  destruct v as [|b|z|s|l|d|dd]; simpl in *; try discriminate; eauto.
  - destruct (int_of_str_cases s) as [[z ->]| ->]; eauto.
  - destruct l; simpl in *; discriminate.
  - destruct d; simpl in *; discriminate.
Qed.

Lemma parse_datetime_ok (v : pyval) : ts_coercible v = true -> exists r, _parse_datetime v = Ok r.
Proof.
  intros H. unfold _parse_datetime. destruct (truthy v) eqn:T; [|eauto].
  destruct v as [|b|z|s|l|d|dd]; simpl in *; try discriminate.
  - rewrite T in H; discriminate.
  - rewrite T in H; discriminate.
  - destruct (fromisoformat s); eauto.
  - destruct l; simpl in *; discriminate.
  - destruct d; simpl in *; discriminate.
Qed.

Lemma extract_ok (data : list (string * pyval)) :
  payload_coercible data = true -> exists p, _extract_ticket_data data = Ok p.
Proof.
  unfold payload_coercible. simpl. intros H.
  repeat rewrite andb_true_iff in H.
  destruct H as [[Hc [Hs [Hf [Hk _]]]] [He [Hx [Hi [Ho _]]]]].
  destruct (to_int_ok _ Hc) as [ci E1]. destruct (to_int_ok _ Hs) as [sn E2].
  destruct (to_int_ok _ Hf) as [cf E3]. destruct (to_int_ok _ Hk) as [pk E6].
  destruct (parse_datetime_ok _ He) as [et E4]. destruct (parse_datetime_ok _ Hx) as [xt E5].
  destruct (parse_datetime_ok _ Hi) as [pi E7]. destruct (parse_datetime_ok _ Ho) as [po E8].
  unfold _extract_ticket_data.
  rewrite E1, E2, E3, E4, E5, E6, E7, E8. simpl. eexists; reflexivity.
Qed.

Lemma populate_ok (sf : string -> string) (t : ticket) (tt : string) (req : request)
    (t1 t2 t3 : datetime) (m : fs) (data : list (string * pyval)) :
  request_data req = Ok data -> payload_coercible data = true ->
  exists t', fst (_populate_ticket_from_request sf t tt req t1 t2 t3 m) = Ok t'.
Proof.
  intros Hd Hc. destruct (extract_ok data Hc) as [p X].
  unfold _populate_ticket_from_request. rewrite Hd.
  destruct (_save_uploaded_image sf (entry_image req) tt "entry" t1 m) as [e1 m1].
  destruct (_save_uploaded_image sf (exit_image req) tt "exit" t2 m1) as [e2 m2].
  destruct (_save_uploaded_image sf (crop_image req) tt "crop" t3 m2) as [e3 m3].
  rewrite X. simpl. eexists; reflexivity.
Qed.

(** [id] and [created_at] are not keys of the payload the loop walks. *)
Lemma populate_frame (sf : string -> string) (t : ticket) (tt : string) (req : request)
    (t1 t2 t3 : datetime) (m : fs) (t' : ticket) :
  fst (_populate_ticket_from_request sf t tt req t1 t2 t3 m) = Ok t' ->
  id t' = id t /\ created_at t' = created_at t.
Proof.
  intros Hp.
  destruct (request_data req) as [data|ex] eqn:Hd;
    [|unfold _populate_ticket_from_request in Hp; rewrite Hd in Hp; discriminate].
  destruct (populate_unfold sf t tt req t1 t2 t3 m data t' Hd Hp)
    as (e1 & e2 & e3 & p & S1 & S2 & S3 & X & Ht').
  destruct (extract_shape data p X)
    as (ci & sn & cf & et & xt & pk & pi & po & E1 & E2 & E3 & E4 & E5 & E6 & E7 & E8 & Hp').
  cbv zeta in Hp'. subst p. cbv zeta in Ht'. clear Hp Hd X.
  change (id t') with (getattr t' F_id). change (created_at t') with (getattr t' F_created_at).
  subst t'.
  rewrite !apply_payload_get
    by (simpl; repeat constructor; simpl; intuition discriminate).
  split; reflexivity.
Qed.

(** ** C1: update has merge-patch semantics *)

(** C1.  Let [data] be the merged payload [{**json, **form}] of an update
    request.  Whenever [_populate_ticket_from_request] completes, every
    attribute other than [id] and [created_at] that receives no uploaded
    file keeps its previous value when its key is absent from [data], and
    is set to [None] when its key is present with the value [None].  It
    completes whenever the integer and timestamp keys carry values the
    coercions accept (strings, numbers, booleans, null). *)
Theorem populate_merge_patch (sf : string -> string) (t : ticket) (tt : string)
    (req : request) (t1 t2 t3 : datetime) (m : fs) (data : list (string * pyval)) :
  request_data req = Ok data ->
  (forall t', fst (_populate_ticket_from_request sf t tt req t1 t2 t3 m) = Ok t' ->
   forall f, f <> F_id -> f <> F_created_at -> uploaded req f = false ->
     (dict_mem data (field_name f) = false -> getattr t' f = getattr t f) /\
     (dict_mem data (field_name f) = true -> dict_get data (field_name f) = PNone ->
      getattr t' f = PNone)) /\
  (payload_coercible data = true ->
   exists t', fst (_populate_ticket_from_request sf t tt req t1 t2 t3 m) = Ok t').
Proof.
  intros Hd. split.
  - intros t' Hp f Hid Hca Hup. exact (populate_get sf t tt req t1 t2 t3 m data t' f Hd Hp Hup Hid Hca).
  - intros Hc. exact (populate_ok sf t tt req t1 t2 t3 m data Hd Hc).
Qed.

(** The example of the specification: a ticket with [status="open"]; a
    JSON body without [status] keeps ["open"], a body [{"status": null}]
    sets it to [None]. *)
Lemma populate_merge_patch_witness :
  let d0 := mk_datetime 2024 1 1 10 0 0 0 None in
  let tk := setattr (setattr empty_ticket F_id (PInt 1)) F_status (PStr "open") in
  let keep := mk_request [] (PDict [("zone_name", PStr "A1")]) None None None in
  let clear := mk_request [] (PDict [("status", PNone)]) None None None in
  (exists t', fst (_populate_ticket_from_request (fun s => s) tk "ocr" keep d0 d0 d0 []) = Ok t'
              /\ status t' = PStr "open") /\
  (exists t', fst (_populate_ticket_from_request (fun s => s) tk "ocr" clear d0 d0 d0 []) = Ok t'
              /\ status t' = PNone).
Proof.
  intros d0 tk keep clear. split.
  - destruct (populate_merge_patch (fun s => s) tk "ocr" keep d0 d0 d0 []
                [("zone_name", PStr "A1")] eq_refl) as [H1 H2].
    destruct (H2 eq_refl) as [t' Ht']. exists t'. split; [exact Ht'|].
    exact (proj1 (H1 t' Ht' F_status ltac:(discriminate) ltac:(discriminate) eq_refl) eq_refl).
  - destruct (populate_merge_patch (fun s => s) tk "ocr" clear d0 d0 d0 []
                [("status", PNone)] eq_refl) as [H1 H2].
    destruct (H2 eq_refl) as [t' Ht']. exists t'. split; [exact Ht'|].
    exact (proj2 (H1 t' Ht' F_status ltac:(discriminate) ltac:(discriminate) eq_refl)
                 eq_refl eq_refl).
Defined.

(** ** C8: population never writes [id] or [created_at] *)

(** C8.  Whatever the request, when [_populate_ticket_from_request]
    completes the ticket's [id] and [created_at] are the ones it had. *)
Theorem populate_keeps_id_created_at (sf : string -> string) (t : ticket) (tt : string)
    (req : request) (t1 t2 t3 : datetime) (m : fs) :
  match fst (_populate_ticket_from_request sf t tt req t1 t2 t3 m) with
  | Ok t' => id t' = id t /\ created_at t' = created_at t
  | Err _ => True
  end.
Proof.
  destruct (fst (_populate_ticket_from_request sf t tt req t1 t2 t3 m)) as [t'|e] eqn:Hp;
    [|exact I].
  exact (populate_frame sf t tt req t1 t2 t3 m t' Hp).
Qed.

(** ** Fixed-width digits *)

Lemma digit_val_char (d : Z) : 0 <= d < 10 -> digit_val (digit_char d) = Some d.
Proof.
  intros H.
  assert (d = 0 \/ d = 1 \/ d = 2 \/ d = 3 \/ d = 4 \/ d = 5 \/ d = 6 \/ d = 7 \/ d = 8 \/ d = 9)
    as Hd by lia.
  repeat destruct Hd as [-> | Hd]; try reflexivity. subst; reflexivity.
Qed.

Lemma parse_digits_acc_pad (n : nat) (v acc : Z) (rest : string) :
  0 <= v < 10 ^ Z.of_nat n ->
  parse_digits_acc n (pad n v ++ rest) acc = Some (acc * 10 ^ Z.of_nat n + v, rest).
Proof.
  revert v acc. induction n as [|n IH]; intros v acc Hv.
  - simpl in *. f_equal. f_equal. lia.
  - assert (0 < 10 ^ Z.of_nat n) as Hp by (apply Z.pow_pos_nonneg; lia).
    assert (10 ^ Z.of_nat (S n) = 10 ^ Z.of_nat n * 10) as Hs
      by (rewrite Nat2Z.inj_succ, Z.pow_succ_r by lia; ring).
    rewrite Hs in Hv. cbn [pad append parse_digits_acc].
    rewrite digit_val_char.
    2: { split; [apply Z.div_pos; lia|]. apply Z.div_lt_upper_bound; lia. }
    rewrite IH by (apply Z.mod_pos_bound; lia).
    f_equal. f_equal. rewrite Hs.
    pose proof (Z.div_mod v (10 ^ Z.of_nat n) ltac:(lia)). nia.
Qed.

Lemma parse_digits_pad (n : nat) (v : Z) (rest : string) :
  0 <= v < 10 ^ Z.of_nat n -> parse_digits n (pad n v ++ rest) = Some (v, rest).
Proof.
  intros Hv. unfold parse_digits. rewrite parse_digits_acc_pad by exact Hv.
  reflexivity.
Qed.

Lemma expect_same (c : ascii) (rest : string) : expect c (String c rest) = Some rest.
Proof. simpl. rewrite Ascii.eqb_refl. reflexivity. Qed.

(** ** [fromisoformat] inverts [isoformat] *)

Lemma str_app_nil_r (s : string) : (s ++ "")%string = s.
Proof. induction s as [|c s IH]; simpl; [reflexivity|rewrite IH; reflexivity]. Qed.

Lemma parse_tz_end_plus (x : string) :
  parse_tz_end (String "+" x) = obind (parse_offset x) (fun o => Some (Some o)).
Proof. reflexivity. Qed.

Lemma parse_tz_end_minus (x : string) :
  parse_tz_end (String "-" x) = obind (parse_offset x) (fun o => Some (Some (- o))).
Proof. reflexivity. Qed.

Lemma parse_tz_end_format (tz : option Z) :
  match tz with None => True | Some off => Z.abs off < 86400000000 end ->
  parse_tz_end (format_offset tz) = Some tz.
Proof.
  destruct tz as [off|]; [|reflexivity]. intros Hb.
  unfold format_offset.
  set (a := Z.abs off).
  pose proof (Z.div_mod a 3600000000 ltac:(lia)) as Da.
  pose proof (Z.mod_pos_bound a 3600000000 ltac:(lia)) as Ba.
  set (r := a mod 3600000000) in *.
  pose proof (Z.div_mod r 60000000 ltac:(lia)) as Dr.
  pose proof (Z.mod_pos_bound r 60000000 ltac:(lia)) as Br.
  set (ss := r mod 60000000) in *.
  pose proof (Z.div_mod ss 1000000 ltac:(lia)) as Ds.
  pose proof (Z.mod_pos_bound ss 1000000 ltac:(lia)) as Bs.
  assert (0 <= a < 86400000000) as Ha by lia.
  assert (0 <= a / 3600000000 < 10 ^ Z.of_nat 2) as B1.
  { simpl. split; [apply Z.div_pos; lia|apply Z.div_lt_upper_bound; lia]. }
  assert (0 <= r / 60000000 < 10 ^ Z.of_nat 2) as B2.
  { simpl. split; [apply Z.div_pos; lia|apply Z.div_lt_upper_bound; lia]. }
  assert (0 <= ss / 1000000 < 10 ^ Z.of_nat 2) as B3.
  { simpl. split; [apply Z.div_pos; lia|apply Z.div_lt_upper_bound; lia]. }
  assert (0 <= ss mod 1000000 < 10 ^ Z.of_nat 6) as B4 by (simpl; lia).
  assert (parse_offset (pad 2 (a / 3600000000) ++ ":" ++ pad 2 (r / 60000000) ++
            (if ss =? 0 then ""
             else ":" ++ pad 2 (ss / 1000000) ++
                  (if ss mod 1000000 =? 0 then "" else "." ++ pad 6 (ss mod 1000000))))
          = Some a) as Hp.
  { unfold parse_offset. rewrite parse_digits_pad by exact B1. cbn [obind append].
    rewrite expect_same. cbn [obind].
    rewrite parse_digits_pad by exact B2. cbn [obind].
    destruct (Z.eqb_spec ss 0) as [E0|E0].
    - f_equal. lia.
    - cbn [append]. rewrite expect_same. cbn [obind].
      rewrite parse_digits_pad by exact B3. cbn [obind].
      destruct (Z.eqb_spec (ss mod 1000000) 0) as [E1|E1].
      + f_equal. lia.
      + cbn [append]. rewrite expect_same. cbn [obind].
        rewrite <- (str_app_nil_r (pad 6 (ss mod 1000000))) at 1.
        rewrite parse_digits_pad by exact B4. cbn [obind]. f_equal. lia. }
  cbn [append] in Hp. destruct (Z.ltb_spec off 0) as [Hn|Hn]; cbn [append];
    [rewrite parse_tz_end_minus | rewrite parse_tz_end_plus]; rewrite Hp; cbn [obind];
    f_equal; f_equal; lia.
Qed.

Lemma expect_dot_offset (tz : option Z) : expect "." (format_offset tz) = None.
Proof.
  destruct tz as [off|]; [|reflexivity]. unfold format_offset.
  destruct (off <? 0); reflexivity.
Qed.

Lemma days_in_month_le (y m : Z) : days_in_month y m <= 31.
Proof.
  unfold days_in_month.
  destruct (m =? 2); [destruct (is_leap y); lia|].
  destruct ((m =? 4) || (m =? 6) || (m =? 9) || (m =? 11)); lia.
Qed.

Lemma valid_bounds (d : datetime) :
  valid_datetime d = true ->
  0 <= dt_year d < 10000 /\ 0 <= dt_month d < 100 /\ 0 <= dt_day d < 100 /\
  0 <= dt_hour d < 100 /\ 0 <= dt_minute d < 100 /\ 0 <= dt_second d < 100 /\
  0 <= dt_microsecond d < 1000000 /\
  match dt_tz d with None => True | Some off => Z.abs off < 86400000000 end.
Proof.
  unfold valid_datetime. intros H.
  repeat rewrite andb_true_iff in H. repeat rewrite Z.leb_le in H.
  pose proof (days_in_month_le (dt_year d) (dt_month d)).
  destruct H as [[[[[[[[[[[[[[H1 H2] H3] H4] H5] H6] H7] H8] H9] H10] H11] H12] H13] H14] H15].
  repeat split; try lia.
  destruct (dt_tz d) as [off|]; [apply Z.ltb_lt; exact H15|exact I].
Qed.

(** [datetime.fromisoformat(d.isoformat()) == d]. *)
Lemma fromisoformat_isoformat (d : datetime) :
  valid_datetime d = true -> fromisoformat (isoformat d) = Some d.
Proof.
  intros Hv. pose proof (valid_bounds d Hv) as (By & Bm & Bd & Bh & Bi & Bs & Bu & Bz).
  destruct d as [y mo dd h mi s us tz]; simpl in *.
  unfold isoformat, fromisoformat; cbn [dt_year dt_month dt_day dt_hour dt_minute
    dt_second dt_microsecond dt_tz].
  rewrite parse_digits_pad by (simpl; lia). cbn [obind append]. rewrite expect_same. cbn [obind].
  rewrite parse_digits_pad by (simpl; lia). cbn [obind append]. rewrite expect_same. cbn [obind].
  rewrite parse_digits_pad by (simpl; lia). cbn [obind append].
  unfold parse_time.
  rewrite parse_digits_pad by (simpl; lia). cbn [obind append]. rewrite expect_same.
  rewrite parse_digits_pad by (simpl; lia). cbn [obind append]. rewrite expect_same.
  rewrite parse_digits_pad by (simpl; lia). cbn [obind].
  destruct (Z.eqb_spec us 0) as [E|E].
  - cbn [append]. rewrite expect_dot_offset. rewrite parse_tz_end_format by exact Bz.
    cbn [obind]. subst us. rewrite Hv. reflexivity.
  - cbn [append]. rewrite expect_same. unfold parse_frac.
    rewrite parse_digits_pad by (simpl; lia). cbn [obind].
    rewrite parse_tz_end_format by exact Bz. cbn [obind]. rewrite Hv. reflexivity.
Qed.

Lemma parse_datetime_isoformat (d : datetime) :
  valid_datetime d = true -> _parse_datetime (PStr (isoformat d)) = Ok (PDateTime d).
Proof.
  intros Hv. unfold _parse_datetime.
  assert (truthy (PStr (isoformat d)) = true) as T.
  { destruct d; unfold isoformat; simpl. reflexivity. }
  rewrite T. rewrite fromisoformat_isoformat by exact Hv. reflexivity.
Qed.

Lemma iso_or_none_stored (v : pyval) :
  stored_timestamp v = true -> exists out, iso_or_none v = Ok out /\ rendered_timestamp v out.
Proof.
  destruct v; simpl; try discriminate.
  - intros _. exists PNone. split; reflexivity.
  - intros Hv. exists (PStr (isoformat d)). split; [reflexivity|].
    split; [reflexivity|]. apply parse_datetime_isoformat; exact Hv.
Qed.

(** ** C5: [as_dict] and the timestamp round trip *)

(** C5.  For a row whose timestamp attributes are [None] or datetimes,
    [as_dict] succeeds and returns the attributes themselves for every
    non-timestamp key, and for each timestamp key [None] when the
    attribute is [None], otherwise its ISO-8601 string, which
    [_parse_datetime] parses back to exactly the stored datetime. *)
Theorem as_dict_projection_roundtrip (t : ticket) :
  stored_timestamp (entry_time t) = true ->
  stored_timestamp (exit_time t) = true ->
  stored_timestamp (created_at t) = true ->
  stored_timestamp (process_time_in t) = true ->
  stored_timestamp (process_time_out t) = true ->
  exists et xt ca pi po,
    as_dict t =
      Ok [("id", id t); ("camera_id", camera_id t); ("zone_name", zone_name t);
          ("camera_ip", camera_ip t); ("zone_region", zone_region t);
          ("spot_number", spot_number t); ("plate_number", plate_number t);
          ("plate_code", plate_code t); ("plate_city", plate_city t);
          ("confidence", confidence t); ("entry_time", et); ("exit_time", xt);
          ("status", status t); ("parkonic_trip_id", parkonic_trip_id t);
          ("image_base64", image_base64 t); ("crop_image_path", crop_image_path t);
          ("entry_image_path", entry_image_path t); ("exit_image_path", exit_image_path t);
          ("exit_clip_path", exit_clip_path t); ("created_at", ca);
          ("process_time_in", pi); ("process_time_out", po)] /\
    rendered_timestamp (entry_time t) et /\ rendered_timestamp (exit_time t) xt /\
    rendered_timestamp (created_at t) ca /\ rendered_timestamp (process_time_in t) pi /\
    rendered_timestamp (process_time_out t) po.
Proof.
  intros H1 H2 H3 H4 H5.
  destruct (iso_or_none_stored _ H1) as [et [E1 R1]].
  destruct (iso_or_none_stored _ H2) as [xt [E2 R2]].
  destruct (iso_or_none_stored _ H3) as [ca [E3 R3]].
  destruct (iso_or_none_stored _ H4) as [pi [E4 R4]].
  destruct (iso_or_none_stored _ H5) as [po [E5 R5]].
  exists et, xt, ca, pi, po. unfold as_dict.
  rewrite E1, E2, E3, E4, E5. repeat split; assumption.
Qed.

(** A freshly created row: [created_at] and [entry_time] set, the other
    timestamps [None]. *)
Lemma as_dict_projection_roundtrip_witness :
  let d1 := mk_datetime 2024 1 1 10 0 0 0 None in
  let d2 := mk_datetime 2024 2 29 23 59 58 123000 None in
  let t := setattr (setattr (setattr empty_ticket F_id (PInt 1)) F_entry_time (PDateTime d1))
                   F_created_at (PDateTime d2) in
  exists et xt ca pi po,
    as_dict t = Ok [("id", PInt 1); ("camera_id", PNone); ("zone_name", PNone);
      ("camera_ip", PNone); ("zone_region", PNone); ("spot_number", PNone);
      ("plate_number", PNone); ("plate_code", PNone); ("plate_city", PNone);
      ("confidence", PNone); ("entry_time", et); ("exit_time", xt); ("status", PNone);
      ("parkonic_trip_id", PNone); ("image_base64", PNone); ("crop_image_path", PNone);
      ("entry_image_path", PNone); ("exit_image_path", PNone); ("exit_clip_path", PNone);
      ("created_at", ca); ("process_time_in", pi); ("process_time_out", po)] /\
    rendered_timestamp (PDateTime d1) et /\ rendered_timestamp (PDateTime d2) ca.
Proof.
  intros d1 d2 t.
  destruct (as_dict_projection_roundtrip t eq_refl eq_refl eq_refl eq_refl eq_refl)
    as (et & xt & ca & pi & po & E & R1 & R2 & R3 & R4 & R5).
  exists et, xt, ca, pi, po. split; [exact E|]. split; [exact R1|exact R3].
Defined.

(** ** C6: listing *)

Lemma insert_desc_perm (x : ticket) (l : list ticket) :
  Permutation (insert_desc x l) (x :: l).
Proof.
  induction l as [|y l IH]; simpl; [reflexivity|].
  destruct (created_key y <? created_key x); [reflexivity|].
  transitivity (y :: x :: l); [constructor; exact IH|constructor].
Qed.

Lemma insert_desc_hd (x y : ticket) (l : list ticket) :
  newer_first y x -> HdRel newer_first y l -> HdRel newer_first y (insert_desc x l).
Proof.
  intros Hyx Hl. destruct l as [|z l]; simpl; [constructor; exact Hyx|].
  destruct (created_key z <? created_key x); constructor; [exact Hyx|].
  apply HdRel_inv in Hl; exact Hl.
Qed.

Lemma insert_desc_sorted (x : ticket) (l : list ticket) :
  Sorted newer_first l -> Sorted newer_first (insert_desc x l).
Proof.
  induction l as [|y l IH]; intros Hs; simpl; [repeat constructor|].
  apply Sorted_inv in Hs as [Hs Hhd].
  destruct (Z.ltb_spec (created_key y) (created_key x)) as [Hlt|Hge].
  - constructor; [constructor; assumption|]. constructor. unfold newer_first; lia.
  - constructor; [apply IH; exact Hs|].
    apply insert_desc_hd; [unfold newer_first; lia|exact Hhd].
Qed.

Lemma order_by_created_desc_spec (l : list ticket) :
  Permutation (order_by_created_desc l) l /\ Sorted newer_first (order_by_created_desc l).
Proof.
  induction l as [|x l [IHp IHs]]; simpl; [split; constructor|].
  split.
  - rewrite insert_desc_perm. constructor. exact IHp.
  - apply insert_desc_sorted. exact IHs.
Qed.

(** C6.  For a ticket type that resolves to a table, the HTML listing
    hands the template every row of the table (a permutation of them),
    newest [created_at] first, and the JSON listing serialises that same
    sequence. *)
Theorem listing_all_newest_first (st : store) (tt : string) (md : model) :
  _get_ticket_model tt = Ok md ->
  exists l,
    list_tickets st tt = Ok l /\
    Permutation l (rows (get_table st md)) /\
    Sorted newer_first l /\
    api_list_get st tt = bind (map_result as_dict_val l) (fun ds => Ok (PList ds, 200)).
Proof.
  intros Hm. exists (order_by_created_desc (rows (get_table st md))).
  destruct (order_by_created_desc_spec (rows (get_table st md))) as [Hp Hs].
  unfold list_tickets, api_list_get. rewrite Hm. simpl.
  split; [reflexivity|]. split; [exact Hp|]. split; [exact Hs|reflexivity].
Qed.

(** Three rows inserted oldest first come back newest first. *)
Lemma listing_all_newest_first_witness :
  let row i s := setattr (setattr empty_ticket F_id (PInt i))
                         F_created_at (PDateTime (mk_datetime 2024 1 1 10 0 s 0 None)) in
  let st := mk_store (mk_table [row 1 5; row 2 9; row 3 7] 4) (mk_table [] 1) in
  _get_ticket_model "OCR" = Ok OcrTicket /\
  exists l, list_tickets st "OCR" = Ok l /\ Permutation l [row 1 5; row 2 9; row 3 7] /\
            Sorted newer_first l.
Proof.
  intros row st. split; [reflexivity|].
  destruct (listing_all_newest_first st "OCR" OcrTicket eq_refl) as (l & H1 & H2 & H3 & _).
  exists l. split; [exact H1|]. split; [exact H2|exact H3].
Defined.

(** ** C2: ticket-type resolution *)

(** C2.  [_get_ticket_model] selects the OCR table exactly for the tokens
    whose lower-case form is ["ocr"], the OMC table exactly for ["omc"],
    and signals not-found for every other token (the empty one too); for
    such a token every route answers not-found and leaves the store and
    the uploaded files as they were. *)
Theorem get_ticket_model_resolution (tt : string) :
  _get_ticket_model tt =
    (if String.eqb (lower tt) "ocr" then Ok OcrTicket
     else if String.eqb (lower tt) "omc" then Ok OmcTicket
     else Err NotFound) /\
  (lower tt <> "ocr" -> lower tt <> "omc" ->
   forall sf st m req i t1 t2 t3 db_now,
     list_tickets st tt = Err NotFound /\
     api_list_get st tt = Err NotFound /\
     api_create sf st m tt req t1 t2 t3 db_now = (Err NotFound, st, m) /\
     api_get st m tt i = (Err NotFound, st, m) /\
     api_update sf st m tt i req t1 t2 t3 = (Err NotFound, st, m) /\
     api_delete st m tt i = (Err NotFound, st, m)).
Proof.
  assert (Heq : _get_ticket_model tt =
    (if String.eqb (lower tt) "ocr" then Ok OcrTicket
     else if String.eqb (lower tt) "omc" then Ok OmcTicket
     else Err NotFound)) by (destruct tt; reflexivity).
  split; [exact Heq|].
  intros Hocr Homc sf st m req i t1 t2 t3 db_now.
  apply String.eqb_neq in Hocr, Homc. rewrite Hocr, Homc in Heq.
  unfold list_tickets, api_list_get, api_create, api_get, api_update, api_delete.
  rewrite Heq. repeat split.
Qed.

(** ** C3, C4, C10: coercion of payload values *)

(** C3.  [_to_int] maps ["101"] to [101] and [""] and ["abc"] to [None],
    but a JSON list raises [TypeError] (only [ValueError] is caught), so
    [POST /api/ocr/tickets] with [{"camera_id": [1]}] fails with that
    exception and stores nothing. *)
Theorem to_int_raises_on_list :
  _to_int (PStr "101") = Ok (PInt 101) /\
  _to_int (PStr "") = Ok PNone /\
  _to_int (PStr "abc") = Ok PNone /\
  _to_int (PList [PInt 1]) = Err TypeError /\
  forall sf st m t1 t2 t3 db_now,
    api_create sf st m "ocr" (mk_request [] (PDict [("camera_id", PList [PInt 1])]) None None None)
      t1 t2 t3 db_now = (Err TypeError, st, m).
Proof. repeat split. Qed.

(** C4.  [_parse_datetime] maps ["2024-01-01T10:00:00"] to that instant
    and ["not-a-date"] and absent values to [None], but a JSON number
    raises [TypeError] ([fromisoformat] takes only [str]; only
    [ValueError] is caught), so [POST /api/ocr/tickets] with
    [{"entry_time": 20240101}] fails with that exception. *)
Theorem parse_datetime_raises_on_number :
  _parse_datetime (PStr "2024-01-01T10:00:00") =
    Ok (PDateTime (mk_datetime 2024 1 1 10 0 0 0 None)) /\
  _parse_datetime (PStr "not-a-date") = Ok PNone /\
  _parse_datetime PNone = Ok PNone /\
  _parse_datetime (PInt 20240101) = Err TypeError /\
  forall sf st m t1 t2 t3 db_now,
    api_create sf st m "ocr" (mk_request [] (PDict [("entry_time", PInt 20240101)]) None None None)
      t1 t2 t3 db_now = (Err TypeError, st, m).
Proof. repeat split. Qed.

(** C10.  [_to_int] maps every falsy value, the JSON number [0] among
    them, to [None]; so creating a ticket from [{"camera_id": 0}] stores
    [None] for [camera_id]. *)
Theorem to_int_zero_is_none :
  (forall v, truthy v = false -> _to_int v = Ok PNone) /\
  _to_int (PInt 0) = Ok PNone /\
  forall sf st m t1 t2 t3 db_now,
    exists r st',
      api_create sf st m "ocr" (mk_request [] (PDict [("camera_id", PInt 0)]) None None None)
        t1 t2 t3 db_now = (r, st', m) /\
      exists row, rows (ocr_ticket st') = app (rows (ocr_ticket st)) [row] /\
                  camera_id row = PNone.
Proof.
  split; [intros v Hv; unfold _to_int; rewrite Hv; reflexivity|].
  split; [reflexivity|].
  intros sf st m t1 t2 t3 db_now. do 2 eexists. split; [reflexivity|].
  eexists. split; reflexivity.
Qed.

(** ** C7: seeding *)

(** C7.  [create_tables] adds one row, the sample with the next id, to a
    table exactly when the table is empty, and leaves a non-empty table
    as it is; so once both tables have a row it changes nothing, and
    running it twice is running it once. *)
Theorem create_tables_seeding (now1 now2 db_now : datetime) (st : store) :
  let st' := create_tables now1 now2 db_now st in
  (rows (ocr_ticket st) = [] ->
   rows (ocr_ticket st') = [snd (insert_row (ocr_ticket st) (sample_ocr_ticket now1) db_now)]) /\
  (rows (ocr_ticket st) <> [] -> ocr_ticket st' = ocr_ticket st) /\
  (rows (omc_ticket st) = [] ->
   rows (omc_ticket st') = [snd (insert_row (omc_ticket st) (sample_omc_ticket now2) db_now)]) /\
  (rows (omc_ticket st) <> [] -> omc_ticket st' = omc_ticket st) /\
  (rows (ocr_ticket st) <> [] -> rows (omc_ticket st) <> [] -> st' = st) /\
  (forall now1' now2' db_now', create_tables now1' now2' db_now' st' = st').
Proof.
  destruct st as [[ocr nocr] [omc nomc]]. unfold create_tables. simpl.
  split; [intros ->; reflexivity|].
  split; [intros H; destruct ocr; [contradiction|reflexivity]|].
  split; [intros ->; reflexivity|].
  split; [intros H; destruct omc; [contradiction|reflexivity]|].
  split; [intros H1 H2; destruct ocr, omc; try contradiction; reflexivity|].
  intros now1' now2' db_now'.
  destruct ocr, omc; reflexivity.
Qed.

(** ** C9: upload paths *)

Lemma str_app_cancel_l (p x y : string) : (p ++ x)%string = (p ++ y)%string -> x = y.
Proof.
  induction p as [|c p IH]; simpl; [tauto|]. intros H; injection H as H. exact (IH H).
Qed.

Lemma str_app_assoc (x y z : string) : ((x ++ y) ++ z)%string = (x ++ (y ++ z))%string.
Proof. induction x as [|c x IH]; simpl; [reflexivity|rewrite IH; reflexivity]. Qed.


Lemma parse_stamp_strftime (d : datetime) (rest : string) :
  valid_datetime d = true ->
  parse_stamp (strftime_stamp d ++ rest) =
    Some (dt_year d, dt_month d, dt_day d, dt_hour d, dt_minute d, dt_second d,
          dt_microsecond d, rest).
Proof.
  intros Hv. pose proof (valid_bounds d Hv) as (By & Bm & Bd & Bh & Bi & Bs & Bu & _).
  unfold strftime_stamp, parse_stamp. rewrite !str_app_assoc.
  rewrite parse_digits_pad by (simpl; lia). cbn [obind].
  rewrite parse_digits_pad by (simpl; lia). cbn [obind].
  rewrite parse_digits_pad by (simpl; lia). cbn [obind].
  rewrite parse_digits_pad by (simpl; lia). cbn [obind].
  rewrite parse_digits_pad by (simpl; lia). cbn [obind].
  rewrite parse_digits_pad by (simpl; lia). cbn [obind].
  rewrite parse_digits_pad by (simpl; lia). cbn [obind].
  reflexivity.
Qed.

Lemma fs_lookup_filter (m : fs) (p q : string) :
  q <> p -> fs_lookup (filter (fun e => negb (String.eqb (fst e) p)) m) q = fs_lookup m q.
Proof.
  intros Hne. induction m as [|[p' c] m IH]; simpl; [reflexivity|].
  destruct (String.eqb_spec p' p) as [->|Hp]; simpl.
  - rewrite IH. apply String.eqb_neq in Hne. rewrite Hne. reflexivity.
  - destruct (String.eqb q p'); [reflexivity|exact IH].
Qed.

Lemma fs_lookup_save_same (m : fs) (p c : string) : fs_lookup (fs_save p c m) p = Some c.
Proof. unfold fs_save. simpl. rewrite String.eqb_refl. reflexivity. Qed.

Lemma fs_lookup_save_other (m : fs) (p q c : string) :
  q <> p -> fs_lookup (fs_save p c m) q = fs_lookup m q.
Proof.
  intros Hne. unfold fs_save. simpl.
  destruct (String.eqb_spec q p) as [E|_]; [contradiction|].
  apply fs_lookup_filter; exact Hne.
Qed.

Lemma stamp_fields_strftime (n1 n2 : datetime) :
  stamp_fields n1 = stamp_fields n2 -> strftime_stamp n1 = strftime_stamp n2.
Proof.
  unfold stamp_fields, strftime_stamp. intros H. injection H as Ey Em Ed Eh Ei Es Eu.
  rewrite Ey, Em, Ed, Eh, Ei, Es, Eu. reflexivity.
Qed.

(** C9 (as amended).  Two uploads with the same original filename to the
    same ticket type and category get different stored paths, and both
    files are kept, exactly when the two UTC clock readings differ at
    microsecond resolution; when they read the same microsecond, both get
    the same path and the second file replaces the first. *)
Theorem upload_paths_distinct (sf : string -> string) (tt cat : string) (u1 u2 : upload)
    (n1 n2 : datetime) (m : fs) :
  filename u1 = filename u2 -> filename u1 <> "" ->
  valid_datetime n1 = true -> valid_datetime n2 = true ->
  1000 <= dt_year n1 -> 1000 <= dt_year n2 ->
  let '(o1, m1) := _save_uploaded_image sf (Some u1) tt cat n1 m in
  let '(o2, m2) := _save_uploaded_image sf (Some u2) tt cat n2 m1 in
  exists p1 p2, o1 = Some p1 /\ o2 = Some p2 /\
    ((p1 <> p2 /\ fs_lookup m2 p1 = Some (content u1) /\ fs_lookup m2 p2 = Some (content u2))
     <-> stamp_fields n1 <> stamp_fields n2) /\
    (stamp_fields n1 = stamp_fields n2 -> p1 = p2 /\ fs_lookup m2 p1 = Some (content u2)).
Proof.
  intros Hf Hne Hv1 Hv2 _ _.
  assert (forall fname : string,
    stamp_fields n1 <> stamp_fields n2 ->
    ("uploads/" ++ lower tt ++ "/" ++ cat ++ "/" ++ (strftime_stamp n1 ++ "_" ++ fname))%string <>
    ("uploads/" ++ lower tt ++ "/" ++ cat ++ "/" ++ (strftime_stamp n2 ++ "_" ++ fname))%string) as Hp.
  { intros fname Hst H.
    do 5 apply str_app_cancel_l in H.
    apply (f_equal parse_stamp) in H.
    rewrite !parse_stamp_strftime in H by assumption.
    injection H as Ey Em Ed Eh Ei Es Eu.
    apply Hst. unfold stamp_fields. rewrite Ey, Em, Ed, Eh, Ei, Es, Eu. reflexivity. }
  unfold _save_uploaded_image. rewrite <- Hf.
  apply String.eqb_neq in Hne. rewrite Hne. cbv beta iota zeta.
  eexists; eexists. split; [reflexivity|]. split; [reflexivity|]. split; [split|].
  - intros [Hd _] Hst. apply Hd. rewrite (stamp_fields_strftime n1 n2 Hst). reflexivity.
  - intros Hst. split; [apply Hp, Hst|]. split.
    + rewrite fs_lookup_save_other by (apply Hp, Hst). apply fs_lookup_save_same.
    + apply fs_lookup_save_same.
  - intros Hst. rewrite (stamp_fields_strftime n1 n2 Hst). split; [reflexivity|].
    apply fs_lookup_save_same.
Qed.

(** Two uploads of [photo.jpg] to [ocr/entry] one microsecond apart. *)
Lemma upload_paths_distinct_witness :
  let n1 := mk_datetime 2026 10 15 12 0 0 123456 None in
  let n2 := mk_datetime 2026 10 15 12 0 0 123457 None in
  let u1 := mk_upload "photo.jpg" "first" in
  let u2 := mk_upload "photo.jpg" "second" in
  let '(o1, m1) := _save_uploaded_image (fun s => s) (Some u1) "ocr" "entry" n1 [] in
  let '(o2, m2) := _save_uploaded_image (fun s => s) (Some u2) "ocr" "entry" n2 m1 in
  exists p1 p2, o1 = Some p1 /\ o2 = Some p2 /\
    ((p1 <> p2 /\ fs_lookup m2 p1 = Some "first" /\ fs_lookup m2 p2 = Some "second")
     <-> stamp_fields n1 <> stamp_fields n2) /\
    (stamp_fields n1 = stamp_fields n2 -> p1 = p2 /\ fs_lookup m2 p1 = Some "second").
Proof.
  intros n1 n2 u1 u2.
  exact (upload_paths_distinct (fun s => s) "ocr" "entry" u1 u2 n1 n2 [] eq_refl
           ltac:(discriminate) eq_refl eq_refl ltac:(simpl; lia) ltac:(simpl; lia)).
Defined.

(** C9 fails as stated: two uploads of [photo.jpg] to [ocr/entry] that
    read the same clock microsecond get the same path, and the second
    file replaces the first. *)
Lemma upload_same_instant_collides :
  let now := mk_datetime 2026 10 15 12 0 0 123456 None in
  let u1 := mk_upload "photo.jpg" "first" in
  let u2 := mk_upload "photo.jpg" "second" in
  let '(o1, m1) := _save_uploaded_image (fun s => s) (Some u1) "ocr" "entry" now [] in
  let '(o2, m2) := _save_uploaded_image (fun s => s) (Some u2) "ocr" "entry" now m1 in
  o1 = o2 /\ o1 = Some "uploads/ocr/entry/20261015120000123456_photo.jpg" /\
  m2 = [("uploads/ocr/entry/20261015120000123456_photo.jpg", "second")].
Proof. vm_compute. repeat split. Qed.


(** * Further properties of the code *)

(** ** Database configuration *)

(** X1: every URI [_build_database_uri] returns names a MySQL driver: it
    starts with [mysql]. *)
Theorem database_uri_is_mysql (env : environ) (u : string) :
  _build_database_uri env = UriOk u -> String.prefix "mysql" u = true.
Proof.
  unfold _build_database_uri. destruct (opt_truthy (env_get env "DATABASE_URL")).
  - destruct (String.prefix "mysql" (opt_str (env_get env "DATABASE_URL"))) eqn:E;
      intros H; inversion H; subst; [exact E].
  - destruct (opt_truthy (env_get env "MYSQL_HOST") && opt_truthy (env_get env "MYSQL_DATABASE")
              && opt_truthy (env_get env "MYSQL_USER")); intros H; inversion H; reflexivity.
Qed.

Lemma database_uri_is_mysql_witness :
  _build_database_uri [("MYSQL_HOST", "db"); ("MYSQL_DATABASE", "tickets"); ("MYSQL_USER", "app")]
    = UriOk "mysql+pymysql://app@db:3306/tickets" /\
  String.prefix "mysql" "mysql+pymysql://app@db:3306/tickets" = true.
Proof.
  split; [reflexivity|].
  apply (database_uri_is_mysql
           [("MYSQL_HOST", "db"); ("MYSQL_DATABASE", "tickets"); ("MYSQL_USER", "app")]).
  reflexivity.
Defined.

(** X2: [_build_database_uri] succeeds exactly when [DATABASE_URL] is set,
    non-empty and starts with [mysql], or when it is unset or empty and
    [MYSQL_HOST], [MYSQL_DATABASE] and [MYSQL_USER] are all set and
    non-empty; otherwise it raises [RuntimeError]. *)
Theorem database_uri_success_iff (env : environ) :
  (exists u, _build_database_uri env = UriOk u) <->
  (opt_truthy (env_get env "DATABASE_URL") = true /\
   String.prefix "mysql" (opt_str (env_get env "DATABASE_URL")) = true) \/
  (opt_truthy (env_get env "DATABASE_URL") = false /\
   opt_truthy (env_get env "MYSQL_HOST") = true /\
   opt_truthy (env_get env "MYSQL_DATABASE") = true /\
   opt_truthy (env_get env "MYSQL_USER") = true).
Proof.
  unfold _build_database_uri.
  destruct (opt_truthy (env_get env "DATABASE_URL")) eqn:U.
  - destruct (String.prefix "mysql" (opt_str (env_get env "DATABASE_URL"))) eqn:P.
    + split; [intros _; left; split; reflexivity | intros _; eexists; reflexivity].
    + split; [intros [u H]; discriminate | intros [[_ H]|[H _]]; discriminate].
  - destruct (opt_truthy (env_get env "MYSQL_HOST")) eqn:H1;
    destruct (opt_truthy (env_get env "MYSQL_DATABASE")) eqn:H2;
    destruct (opt_truthy (env_get env "MYSQL_USER")) eqn:H3; simpl.
    all: first [ split; [intros _; right; repeat split; reflexivity
                        | intros _; eexists; reflexivity]
               | split; [intros [u H]; discriminate
                        | intros [[H _]|(_ & Ha & Hb & Hc)]; discriminate] ].
Qed.

(** X3: a set, non-empty [DATABASE_URL] decides the outcome alone: the
    [MYSQL_*] variables are then never read, whatever they hold. *)
Theorem database_url_takes_precedence (env : environ) (u : string) :
  env_get env "DATABASE_URL" = Some u -> u <> "" ->
  _build_database_uri env = _build_database_uri [("DATABASE_URL", u)].
Proof.
  intros He Hu. unfold _build_database_uri. rewrite He. simpl.
  apply String.eqb_neq in Hu. rewrite Hu. reflexivity.
Qed.

Lemma database_url_takes_precedence_witness :
  _build_database_uri [("MYSQL_HOST", "db"); ("DATABASE_URL", "postgresql://x/y");
                       ("MYSQL_DATABASE", "t"); ("MYSQL_USER", "u")] =
  _build_database_uri [("DATABASE_URL", "postgresql://x/y")].
Proof.
  apply database_url_takes_precedence; [reflexivity | discriminate].
Defined.

(** ** Labels and image URLs *)

(** X4: on every token [_get_ticket_model] resolves, [_ticket_label]
    names the table it resolves to: ["OCR"] for [OcrTicket], ["OMC"] for
    [OmcTicket]. *)
Theorem ticket_label_matches_model (tt : string) (md : model) :
  _get_ticket_model tt = Ok md ->
  _ticket_label tt = match md with OcrTicket => "OCR" | OmcTicket => "OMC" end.
Proof.
  unfold _get_ticket_model, _ticket_label. destruct tt as [|c s]; [discriminate|].
  destruct (String.eqb (lower (String c s)) "ocr") eqn:E1.
  - intros H; injection H as <-; reflexivity.
  - destruct (String.eqb (lower (String c s)) "omc"); [|discriminate].
    intros H; injection H as <-; reflexivity.
Qed.

Lemma ticket_label_matches_model_witness :
  _get_ticket_model "OmC" = Ok OmcTicket /\ _ticket_label "OmC" = "OMC".
Proof. split; [reflexivity | exact (ticket_label_matches_model "OmC" OmcTicket eq_refl)]. Defined.

(** X5: the path [_save_uploaded_image] returns is rendered by
    [image_url] as the static URL of exactly that path: it is not an
    [http(s)] URL and has no leading slash to strip. *)
Theorem image_url_saved_upload (sf url_for_static : string -> string) (up : option upload)
    (tt cat : string) (now : datetime) (m : fs) (p : string) :
  fst (_save_uploaded_image sf up tt cat now m) = Some p ->
  image_url url_for_static (PStr p) = Ok (PStr (url_for_static p)).
Proof.
  unfold _save_uploaded_image. destruct up as [u|]; [|discriminate].
  destruct (String.eqb (filename u) ""); [discriminate|].
  intros H; injection H as <-. reflexivity.
Qed.

Lemma image_url_saved_upload_witness :
  fst (_save_uploaded_image (fun s => s) (Some (mk_upload "a.jpg" "x")) "OCR" "entry"
         (mk_datetime 2024 1 1 10 0 0 0 None) [])
    = Some "uploads/ocr/entry/20240101100000000000_a.jpg" /\
  image_url (fun s => "/static/" ++ s) (PStr "uploads/ocr/entry/20240101100000000000_a.jpg")
    = Ok (PStr ("/static/" ++ "uploads/ocr/entry/20240101100000000000_a.jpg")).
Proof.
  split; [reflexivity|].
  apply (image_url_saved_upload (fun s => s) (fun s => "/static/" ++ s)
           (Some (mk_upload "a.jpg" "x")) "OCR" "entry" (mk_datetime 2024 1 1 10 0 0 0 None) []).
  reflexivity.
Defined.

(** X6: a leading slash does not change how [image_url] renders a local
    path: ["/p"] and ["p"] give the same URL, for every non-empty [p]
    that is not an [http://] or [https://] URL. *)
Theorem image_url_leading_slash (url_for_static : string -> string) (p : string) :
  p <> "" -> String.prefix "http://" p = false -> String.prefix "https://" p = false ->
  image_url url_for_static (PStr ("/" ++ p)) = image_url url_for_static (PStr p).
Proof.
  intros Hne H1 H2. unfold image_url. simpl.
  apply String.eqb_neq in Hne. rewrite Hne, H1, H2. reflexivity.
Qed.

Lemma image_url_leading_slash_witness :
  image_url (fun s => "/static/" ++ s) (PStr "/tmp/crop.jpg") =
  image_url (fun s => "/static/" ++ s) (PStr "tmp/crop.jpg").
Proof.
  apply (image_url_leading_slash (fun s => "/static/" ++ s) "tmp/crop.jpg");
    [discriminate | reflexivity | reflexivity].
Defined.

(** ** The store *)

Lemma get_put_same (st : store) (md : model) (tb : table) :
  get_table (put_table st md tb) md = tb.
Proof. destruct md; reflexivity. Qed.

Lemma get_put_other (st : store) (md md' : model) (tb : table) :
  md' <> md -> get_table (put_table st md tb) md' = get_table st md'.
Proof. destruct md, md'; simpl; congruence. Qed.

Lemma store_ok_get (st : store) (md : model) : store_ok st -> table_ok (get_table st md).
Proof. destruct md; intros [H1 H2]; assumption. Qed.

Lemma store_ok_put (st : store) (md : model) (tb : table) :
  store_ok st -> table_ok tb -> store_ok (put_table st md tb).
Proof. destruct md; intros [H1 H2] H; split; assumption. Qed.

Lemma has_id_id (i : Z) (t : ticket) : has_id i t = true -> id t = PInt i.
Proof.
  unfold has_id. destruct (id t); try discriminate.
  intros H; apply Z.eqb_eq in H; subst; reflexivity.
Qed.

Lemma has_id_same (i : Z) (t t' : ticket) : id t' = id t -> has_id i t' = has_id i t.
Proof. unfold has_id; intros ->; reflexivity. Qed.

Lemma get_or_404_some (tb : table) (i : Z) (t : ticket) :
  get_or_404 tb i = Ok t -> In t (rows tb) /\ has_id i t = true.
Proof.
  unfold get_or_404. destruct (find (has_id i) (rows tb)) eqn:F; [|discriminate].
  intros H; injection H as <-. apply find_some in F. exact F.
Qed.

Lemma ts_ok_iso (v : pyval) : ts_ok v = true -> exists r, iso_or_none v = Ok r.
Proof. destruct v; try discriminate; intros _; eexists; reflexivity. Qed.

(** A row whose timestamp attributes are [None] or datetimes has a dict. *)
Lemma as_dict_val_ok (t : ticket) : row_ok t = true -> exists v, as_dict_val t = Ok v.
Proof.
  unfold row_ok. simpl. rewrite !andb_true_iff. intros (H1 & H2 & H3 & H4 & H5 & _).
  destruct (ts_ok_iso _ H1) as [a E1]. destruct (ts_ok_iso _ H2) as [b E2].
  destruct (ts_ok_iso _ H3) as [c E3]. destruct (ts_ok_iso _ H4) as [d E4].
  destruct (ts_ok_iso _ H5) as [e E5].
  unfold as_dict_val, as_dict. rewrite E1, E2, E3, E4, E5. eexists; reflexivity.
Qed.

Lemma parse_datetime_ts_ok (v r : pyval) : _parse_datetime v = Ok r -> ts_ok r = true.
Proof.
  unfold _parse_datetime. destruct (truthy v).
  - destruct v; try discriminate.
    destruct (fromisoformat s); intros H; injection H as <-; reflexivity.
  - intros H; injection H as <-; reflexivity.
Qed.

Lemma merge_ts_ok (data : list (string * pyval)) (f : field) (v old : pyval) :
  ts_ok v = true -> ts_ok old = true -> ts_ok (merge_value data f v old) = true.
Proof.
  unfold merge_value. intros Hv Ho. destruct v; try exact Hv.
  destruct (dict_mem data (field_name f)); [exact Hv | exact Ho].
Qed.

(** Population keeps the timestamp attributes [None] or datetimes. *)
Lemma populate_row_ok (sf : string -> string) (t : ticket) (tt : string) (req : request)
    (t1 t2 t3 : datetime) (m : fs) (t' : ticket) :
  row_ok t = true ->
  fst (_populate_ticket_from_request sf t tt req t1 t2 t3 m) = Ok t' ->
  row_ok t' = true.
Proof.
  intros Hrow Hp.
  destruct (populate_frame sf t tt req t1 t2 t3 m t' Hp) as [_ Hca].
  destruct (request_data req) as [data|ex] eqn:Hd;
    [|unfold _populate_ticket_from_request in Hp; rewrite Hd in Hp; discriminate].
  destruct (populate_unfold sf t tt req t1 t2 t3 m data t' Hd Hp)
    as (e1 & e2 & e3 & p & S1 & S2 & S3 & X & Ht').
  destruct (extract_shape data p X)
    as (ci & sn & cf & et & xt & pk & pi & po & E1 & E2 & E3 & E4 & E5 & E6 & E7 & E8 & Hp').
  cbv zeta in Hp'. subst p. cbv zeta in Ht'. clear Hp Hd X S1 S2 S3.
  unfold row_ok in Hrow |- *. cbn [forallb] in Hrow |- *.
  rewrite !andb_true_iff in Hrow. destruct Hrow as (R1 & R2 & R3 & R4 & R5 & _).
  rewrite Hca.
  change (entry_time t') with (getattr t' F_entry_time).
  change (exit_time t') with (getattr t' F_exit_time).
  change (process_time_in t') with (getattr t' F_process_time_in).
  change (process_time_out t') with (getattr t' F_process_time_out).
  subst t'.
  rewrite !apply_payload_get
    by (simpl; repeat constructor; simpl; intuition discriminate).
  cbn [find set_payload map fst snd field_beq].
  rewrite (merge_ts_ok _ _ _ _ (parse_datetime_ts_ok _ _ E4) R1),
          (merge_ts_ok _ _ _ _ (parse_datetime_ts_ok _ _ E5) R2),
          (merge_ts_ok _ _ _ _ (parse_datetime_ts_ok _ _ E7) R4),
          (merge_ts_ok _ _ _ _ (parse_datetime_ts_ok _ _ E8) R5), R3.
  reflexivity.
Qed.

(** ** Table invariants *)

Lemma insert_row_spec (tb : table) (t : ticket) (db_now : datetime) :
  rows (fst (insert_row tb t db_now)) = app (rows tb) [snd (insert_row tb t db_now)] /\
  next_id (fst (insert_row tb t db_now)) = next_id tb + 1 /\
  id (snd (insert_row tb t db_now)) = PInt (next_id tb) /\
  (row_ok t = true -> row_ok (snd (insert_row tb t db_now)) = true).
Proof.
  destruct t as [a0 a1 a2 a3 a4 a5 a6 a7 a8 a9 a10 a11 a12 a13 a14 a15 a16 a17 a18 a19 a20 a21].
  unfold insert_row. simpl.
  destruct a19; simpl; repeat split; intros H; exact H.
Qed.

Lemma id_below_weaken (n : Z) (v : pyval) : id_below n v -> id_below (n + 1) v.
Proof. intros (j & -> & Hj). exists j. split; [reflexivity | lia]. Qed.

Lemma table_ok_insert (tb : table) (t : ticket) (db_now : datetime) :
  table_ok tb -> row_ok t = true -> table_ok (fst (insert_row tb t db_now)).
Proof.
  intros [[Hb Hn] Hr] Ht.
  destruct (insert_row_spec tb t db_now) as (Er & En & Ei & Eo).
  set (t' := snd (insert_row tb t db_now)) in *.
  unfold table_ok, ids_ok. rewrite Er, En, map_app. simpl. repeat split.
  - apply Forall_app. split.
    + eapply Forall_impl; [|exact Hb]. apply id_below_weaken.
    + constructor; [|constructor]. rewrite Ei. exists (next_id tb). split; [reflexivity|lia].
  - apply NoDup_app; [exact Hn | constructor; [intros []|constructor] |].
    intros a Ha [Hc|[]]. rewrite Forall_forall in Hb. destruct (Hb a Ha) as (j & Ej & Hj).
    rewrite Ei in Hc. subst a. injection Ej as Ej. lia.
  - apply Forall_app. split; [exact Hr|]. constructor; [exact (Eo Ht)|constructor].
Qed.

Lemma map_id_replace (i : Z) (t' : ticket) (l : list ticket) :
  id t' = PInt i ->
  map id (map (fun r => if has_id i r then t' else r) l) = map id l.
Proof.
  intros Hi. induction l as [|r l IH]; simpl; [reflexivity|]. rewrite IH.
  destruct (has_id i r) eqn:E; [|reflexivity]. rewrite Hi, (has_id_id i r E). reflexivity.
Qed.

Lemma table_ok_replace (tb : table) (i : Z) (t t' : ticket) :
  table_ok tb -> get_or_404 tb i = Ok t -> id t' = id t -> row_ok t' = true ->
  table_ok (replace_row tb i t').
Proof.
  intros [[Hb Hn] Hr] Hg Hid Ho. destruct (get_or_404_some tb i t Hg) as [_ Hh].
  assert (id t' = PInt i) as Hi by (rewrite Hid; exact (has_id_id i t Hh)).
  unfold table_ok, ids_ok, replace_row. simpl. rewrite (map_id_replace i t' (rows tb) Hi).
  repeat split; [exact Hb | exact Hn |].
  apply Forall_map. eapply Forall_impl; [|exact Hr].
  intros r Hr'. destruct (has_id i r); assumption.
Qed.

Lemma nodup_map_filter (g : ticket -> bool) (l : list ticket) :
  NoDup (map id l) -> NoDup (map id (filter g l)).
Proof.
  induction l as [|r l IH]; simpl; [intros; constructor|].
  intros Hn. inversion Hn as [|x l' Hnot Hn' Heq]; subst.
  destruct (g r); simpl; [|exact (IH Hn')].
  constructor; [|exact (IH Hn')].
  intros Hin. apply Hnot. apply in_map_iff in Hin. destruct Hin as (r' & Er & Hr').
  apply filter_In in Hr'. apply in_map_iff. exists r'. split; [exact Er | exact (proj1 Hr')].
Qed.

Lemma table_ok_delete (tb : table) (i : Z) : table_ok tb -> table_ok (delete_row tb i).
Proof.
  intros [[Hb Hn] Hr]. unfold table_ok, ids_ok, delete_row. simpl. repeat split.
  - rewrite Forall_forall in *. intros v Hv. apply in_map_iff in Hv.
    destruct Hv as (r & <- & Hr'). apply filter_In in Hr'.
    apply Hb. apply in_map. exact (proj1 Hr').
  - apply nodup_map_filter. exact Hn.
  - rewrite Forall_forall in *. intros r Hr'. apply filter_In in Hr'. exact (Hr r (proj1 Hr')).
Qed.

Lemma table_ok_row (tb : table) (i : Z) (t : ticket) :
  table_ok tb -> get_or_404 tb i = Ok t -> row_ok t = true.
Proof.
  intros [_ Hr] Hg. destruct (get_or_404_some tb i t Hg) as [Hin _].
  rewrite Forall_forall in Hr. exact (Hr t Hin).
Qed.

Lemma empty_row_ok : row_ok empty_ticket = true.
Proof. reflexivity. Qed.

(** ** Route effects *)

Lemma create_ticket_effect (sf : string -> string) (st : store) (m : fs) (tt : string)
    (req : request) (t1 t2 t3 db_now : datetime) :
  effect (create_ticket_post sf st m tt req t1 t2 t3 db_now) =
  effect (api_create sf st m tt req t1 t2 t3 db_now).
Proof.
  unfold create_ticket_post, api_create.
  destruct (_get_ticket_model tt) as [md|e]; [|reflexivity].
  destruct (_populate_ticket_from_request sf empty_ticket tt req t1 t2 t3 m) as [[t|e] m'];
    [|reflexivity].
  destruct (insert_row (get_table st md) t db_now) as [tb t'].
  destruct (as_dict_val t'); reflexivity.
Qed.

Lemma edit_ticket_effect (sf : string -> string) (st : store) (m : fs) (tt : string) (i : Z)
    (req : request) (t1 t2 t3 : datetime) :
  effect (edit_ticket_post sf st m tt i req t1 t2 t3) =
  effect (api_update sf st m tt i req t1 t2 t3).
Proof.
  unfold edit_ticket_post, api_update.
  destruct (_get_ticket_model tt) as [md|e]; [|reflexivity].
  destruct (get_or_404 (get_table st md) i) as [t|e]; [|reflexivity].
  destruct (_populate_ticket_from_request sf t tt req t1 t2 t3 m) as [[t'|e] m'];
    reflexivity.
Qed.

Lemma delete_ticket_effect (st : store) (m : fs) (tt : string) (i : Z) :
  effect (delete_ticket st m tt i) = effect (api_delete st m tt i).
Proof.
  unfold delete_ticket, api_delete.
  destruct (_get_ticket_model tt) as [md|e]; [|reflexivity].
  destruct (get_or_404 (get_table st md) i); reflexivity.
Qed.

Lemma api_create_ok (sf : string -> string) (st : store) (m : fs) (tt : string)
    (req : request) (t1 t2 t3 db_now : datetime) :
  store_ok st -> store_ok (fst (effect (api_create sf st m tt req t1 t2 t3 db_now))).
Proof.
  intros Hok. unfold api_create.
  destruct (_get_ticket_model tt) as [md|e]; [|exact Hok].
  destruct (_populate_ticket_from_request sf empty_ticket tt req t1 t2 t3 m) as [r m'] eqn:P.
  destruct r as [t|e]; [|exact Hok].
  assert (row_ok t = true) as Ht
    by (apply (populate_row_ok sf empty_ticket tt req t1 t2 t3 m t empty_row_ok); rewrite P;
        reflexivity).
  pose proof (table_ok_insert (get_table st md) t db_now (store_ok_get st md Hok) Ht) as Hi.
  destruct (insert_row (get_table st md) t db_now) as [tb t'].
  destruct (as_dict_val t'); simpl; apply store_ok_put; assumption.
Qed.

Lemma api_update_ok (sf : string -> string) (st : store) (m : fs) (tt : string) (i : Z)
    (req : request) (t1 t2 t3 : datetime) :
  store_ok st -> store_ok (fst (effect (api_update sf st m tt i req t1 t2 t3))).
Proof.
  intros Hok. unfold api_update.
  destruct (_get_ticket_model tt) as [md|e]; [|exact Hok].
  destruct (get_or_404 (get_table st md) i) as [t|e] eqn:G; [|exact Hok].
  destruct (_populate_ticket_from_request sf t tt req t1 t2 t3 m) as [r m'] eqn:P.
  destruct r as [t'|e]; [|exact Hok].
  assert (fst (_populate_ticket_from_request sf t tt req t1 t2 t3 m) = Ok t') as P'
    by (rewrite P; reflexivity).
  simpl. apply store_ok_put; [exact Hok|].
  apply (table_ok_replace _ i t t' (store_ok_get st md Hok) G).
  - exact (proj1 (populate_frame sf t tt req t1 t2 t3 m t' P')).
  - exact (populate_row_ok sf t tt req t1 t2 t3 m t'
             (table_ok_row _ i t (store_ok_get st md Hok) G) P').
Qed.

Lemma api_delete_ok (st : store) (m : fs) (tt : string) (i : Z) :
  store_ok st -> store_ok (fst (effect (api_delete st m tt i))).
Proof.
  intros Hok. unfold api_delete.
  destruct (_get_ticket_model tt) as [md|e]; [|exact Hok].
  destruct (get_or_404 (get_table st md) i); [|exact Hok].
  simpl. apply store_ok_put; [exact Hok|]. apply table_ok_delete. exact (store_ok_get st md Hok).
Qed.

Lemma create_tables_ok (now1 now2 db_now : datetime) (st : store) :
  store_ok st -> store_ok (create_tables now1 now2 db_now st).
Proof.
  intros [H1 H2]. unfold create_tables. cbv zeta. split; cbn [ocr_ticket omc_ticket].
  - destruct (rows (ocr_ticket st)); [apply table_ok_insert; [exact H1|reflexivity] | exact H1].
  - destruct (rows (omc_ticket st)); [apply table_ok_insert; [exact H2|reflexivity] | exact H2].
Qed.

(** X7: the HTML routes that write ([POST .../new], [.../edit],
    [.../delete]) leave the store and the uploaded files exactly as their
    JSON counterparts ([POST], [PUT], [DELETE] on [/api/...]) do; they
    differ only in the response. *)
Theorem html_routes_match_api (sf : string -> string) (st : store) (m : fs) (tt : string)
    (i : Z) (req : request) (t1 t2 t3 db_now : datetime) :
  effect (create_ticket_post sf st m tt req t1 t2 t3 db_now) =
    effect (api_create sf st m tt req t1 t2 t3 db_now) /\
  effect (edit_ticket_post sf st m tt i req t1 t2 t3) =
    effect (api_update sf st m tt i req t1 t2 t3) /\
  effect (delete_ticket st m tt i) = effect (api_delete st m tt i).
Proof.
  split; [apply create_ticket_effect|]. split; [apply edit_ticket_effect|].
  apply delete_ticket_effect.
Qed.

(** X8: every route that writes, and [create_tables], keeps the store's
    invariant: in each table the ids are distinct [int]s below the next
    auto-increment id, and every timestamp attribute is [None] or a
    datetime. *)
Theorem routes_preserve_store_ok (sf : string -> string) (st : store) (m : fs) (tt : string)
    (i : Z) (req : request) (t1 t2 t3 db_now now1 now2 : datetime) :
  store_ok st ->
  store_ok (fst (effect (api_create sf st m tt req t1 t2 t3 db_now))) /\
  store_ok (fst (effect (api_update sf st m tt i req t1 t2 t3))) /\
  store_ok (fst (effect (api_delete st m tt i))) /\
  store_ok (fst (effect (create_ticket_post sf st m tt req t1 t2 t3 db_now))) /\
  store_ok (fst (effect (edit_ticket_post sf st m tt i req t1 t2 t3))) /\
  store_ok (fst (effect (delete_ticket st m tt i))) /\
  store_ok (create_tables now1 now2 db_now st).
Proof.
  intros Hok.
  rewrite create_ticket_effect, edit_ticket_effect, delete_ticket_effect.
  pose proof (api_create_ok sf st m tt req t1 t2 t3 db_now Hok).
  pose proof (api_update_ok sf st m tt i req t1 t2 t3 Hok).
  pose proof (api_delete_ok st m tt i Hok).
  pose proof (create_tables_ok now1 now2 db_now st Hok).
  tauto.
Qed.

Lemma empty_store_ok : store_ok empty_store.
Proof. split; (split; [split; constructor | constructor]). Qed.

Lemma routes_preserve_store_ok_witness :
  store_ok empty_store /\
  store_ok (create_tables (mk_datetime 2024 1 1 0 0 0 0 None) (mk_datetime 2024 1 1 0 0 0 0 None)
              (mk_datetime 2024 1 1 0 0 0 0 None) empty_store).
Proof.
  split; [exact empty_store_ok|].
  exact (proj2 (proj2 (proj2 (proj2 (proj2 (proj2
    (routes_preserve_store_ok (fun s => s) empty_store [] "ocr" 1
       (mk_request [] PNone None None None)
       (mk_datetime 2024 1 1 0 0 0 0 None) (mk_datetime 2024 1 1 0 0 0 0 None)
       (mk_datetime 2024 1 1 0 0 0 0 None) (mk_datetime 2024 1 1 0 0 0 0 None)
       (mk_datetime 2024 1 1 0 0 0 0 None) (mk_datetime 2024 1 1 0 0 0 0 None)
       empty_store_ok))))))).
Defined.

Lemma find_app_skip (i : Z) (l : list ticket) (t : ticket) :
  Forall (id_below i) (map id l) -> has_id i t = true -> find (has_id i) (app l [t]) = Some t.
Proof.
  induction l as [|r l IH]; simpl; intros Hb Ht; [rewrite Ht; reflexivity|].
  inversion Hb as [|x l' Hr Hb' Heq]; subst.
  destruct Hr as (j & Ej & Hj). unfold has_id at 1. rewrite Ej.
  replace (i =? j) with false by (symmetry; apply Z.eqb_neq; lia).
  exact (IH Hb' Ht).
Qed.

(** X10: on a store that keeps its invariant, a ticket created through the
    API is the one [GET /api/<type>/tickets/<id>] then returns, at the id
    the table handed out ([next_id] before the create), with the same
    JSON body. *)
Theorem create_then_get (sf : string -> string) (st : store) (m : fs) (tt : string)
    (md : model) (req : request) (t1 t2 t3 db_now : datetime) :
  store_ok st -> _get_ticket_model tt = Ok md ->
  match api_create sf st m tt req t1 t2 t3 db_now with
  | (Ok (v, _), st', m') => api_get st' m' tt (next_id (get_table st md)) = (Ok (v, 200), st', m')
  | _ => True
  end.
Proof.
  intros Hok Hm. unfold api_create. rewrite Hm.
  destruct (_populate_ticket_from_request sf empty_ticket tt req t1 t2 t3 m) as [[t|e] m'];
    [|exact I].
  destruct (insert_row_spec (get_table st md) t db_now) as (Er & _ & Ei & _).
  destruct (insert_row (get_table st md) t db_now) as [tb t'].
  simpl in Er, Ei.
  destruct (as_dict_val t') as [v|e] eqn:Ev; [|exact I].
  unfold api_get. rewrite Hm, get_put_same. unfold get_or_404. rewrite Er.
  destruct (store_ok_get st md Hok) as [[Hb _] _].
  rewrite (find_app_skip _ _ t' Hb) by (unfold has_id; rewrite Ei; apply Z.eqb_refl).
  simpl. rewrite Ev. reflexivity.
Qed.

Lemma create_then_get_witness :
  store_ok empty_store /\ _get_ticket_model "ocr" = Ok OcrTicket /\
  match api_create (fun s => s) empty_store [] "ocr"
          (mk_request [("status", "open")] PNone None None None)
          (mk_datetime 2024 1 1 0 0 0 0 None) (mk_datetime 2024 1 1 0 0 0 0 None)
          (mk_datetime 2024 1 1 0 0 0 0 None) (mk_datetime 2024 1 1 0 0 0 0 None) with
  | (Ok (v, _), st', m') => api_get st' m' "ocr" 1 = (Ok (v, 200), st', m')
  | _ => True
  end.
Proof.
  split; [exact empty_store_ok|]. split; [reflexivity|].
  exact (create_then_get (fun s => s) empty_store [] "ocr" OcrTicket
           (mk_request [("status", "open")] PNone None None None)
           (mk_datetime 2024 1 1 0 0 0 0 None) (mk_datetime 2024 1 1 0 0 0 0 None)
           (mk_datetime 2024 1 1 0 0 0 0 None) (mk_datetime 2024 1 1 0 0 0 0 None)
           empty_store_ok eq_refl).
Defined.

Lemma find_replace (i : Z) (t t' : ticket) (l : list ticket) :
  find (has_id i) l = Some t -> has_id i t' = true ->
  find (has_id i) (map (fun r => if has_id i r then t' else r) l) = Some t'.
Proof.
  induction l as [|r l IH]; simpl; [discriminate|]. intros Hf Ht.
  destruct (has_id i r) eqn:E; simpl; [rewrite Ht; reflexivity|].
  rewrite E. exact (IH Hf Ht).
Qed.

(** X11: after a successful [PUT /api/<type>/tickets/<id>], a [GET] of the
    same id returns the body the [PUT] answered with. *)
Theorem update_then_get (sf : string -> string) (st : store) (m : fs) (tt : string) (i : Z)
    (req : request) (t1 t2 t3 : datetime) :
  match api_update sf st m tt i req t1 t2 t3 with
  | (Ok (v, _), st', m') => api_get st' m' tt i = (Ok (v, 200), st', m')
  | _ => True
  end.
Proof.
  unfold api_update.
  destruct (_get_ticket_model tt) as [md|e] eqn:Hm; [|exact I].
  destruct (get_or_404 (get_table st md) i) as [t|e] eqn:G; [|exact I].
  destruct (_populate_ticket_from_request sf t tt req t1 t2 t3 m) as [r m'] eqn:P.
  destruct r as [t'|e]; [|exact I].
  assert (fst (_populate_ticket_from_request sf t tt req t1 t2 t3 m) = Ok t') as P'
    by (rewrite P; reflexivity).
  destruct (populate_frame sf t tt req t1 t2 t3 m t' P') as [Hid _].
  destruct (as_dict_val t') as [v|e] eqn:Ev; [|exact I]. simpl.
  unfold api_get. rewrite Hm, get_put_same.
  unfold get_or_404, replace_row. simpl.
  unfold get_or_404 in G.
  destruct (find (has_id i) (rows (get_table st md))) as [t0|] eqn:F; [|discriminate].
  injection G as ->.
  pose proof (proj2 (find_some _ _ F)) as Ht.
  rewrite (find_replace i t t' _ F) by (rewrite (has_id_same i t t' Hid); exact Ht).
  simpl. rewrite Ev. reflexivity.
Qed.

Lemma find_delete_same (i : Z) (l : list ticket) :
  find (has_id i) (filter (fun r => negb (has_id i r)) l) = None.
Proof.
  induction l as [|r l IH]; simpl; [reflexivity|].
  destruct (has_id i r) eqn:E; simpl; [exact IH|]. rewrite E. exact IH.
Qed.

Lemma find_delete_other (i j : Z) (l : list ticket) :
  j <> i -> find (has_id j) (filter (fun r => negb (has_id i r)) l) = find (has_id j) l.
Proof.
  intros Hne. induction l as [|r l IH]; simpl; [reflexivity|].
  destruct (has_id i r) eqn:E; simpl.
  - rewrite IH. unfold has_id at 2. rewrite (has_id_id i r E).
    replace (j =? i) with false by (symmetry; apply Z.eqb_neq; exact Hne). reflexivity.
  - destruct (has_id j r); [reflexivity | exact IH].
Qed.

(** X12: after a successful [DELETE /api/<type>/tickets/<id>], a [GET] of
    that id is a 404, and the lookup of every other id gives what it gave
    before. *)
Theorem delete_then_get (st : store) (m : fs) (tt : string) (i : Z) :
  match api_delete st m tt i with
  | (Ok _, st', m') =>
      api_get st' m' tt i = (Err NotFound, st', m') /\
      forall md j, _get_ticket_model tt = Ok md -> j <> i ->
        get_or_404 (get_table st' md) j = get_or_404 (get_table st md) j
  | _ => True
  end.
Proof.
  unfold api_delete.
  destruct (_get_ticket_model tt) as [md|e] eqn:Hm; [|exact I].
  destruct (get_or_404 (get_table st md) i) as [t|e]; [|exact I].
  split.
  - unfold api_get. rewrite Hm, get_put_same. unfold get_or_404, delete_row. simpl.
    rewrite find_delete_same. reflexivity.
  - intros md' j Hm' Hne. injection Hm' as <-.
    rewrite get_put_same. unfold get_or_404, delete_row. simpl.
    rewrite find_delete_other by exact Hne. reflexivity.
Qed.

(** X13: a route on one ticket type never touches the other type's table:
    creating, updating or deleting an OCR ticket (through the API or the
    HTML forms) leaves the OMC table as it was, and the other way round. *)
Theorem routes_touch_one_table (sf : string -> string) (st : store) (m : fs) (tt : string)
    (md md' : model) (i : Z) (req : request) (t1 t2 t3 db_now : datetime) :
  _get_ticket_model tt = Ok md -> md' <> md ->
  get_table (fst (effect (api_create sf st m tt req t1 t2 t3 db_now))) md' = get_table st md' /\
  get_table (fst (effect (api_update sf st m tt i req t1 t2 t3))) md' = get_table st md' /\
  get_table (fst (effect (api_delete st m tt i))) md' = get_table st md' /\
  get_table (fst (effect (create_ticket_post sf st m tt req t1 t2 t3 db_now))) md'
    = get_table st md' /\
  get_table (fst (effect (edit_ticket_post sf st m tt i req t1 t2 t3))) md' = get_table st md' /\
  get_table (fst (effect (delete_ticket st m tt i))) md' = get_table st md'.
Proof.
  intros Hm Hne.
  rewrite create_ticket_effect, edit_ticket_effect, delete_ticket_effect.
  assert (A : get_table (fst (effect (api_create sf st m tt req t1 t2 t3 db_now))) md'
              = get_table st md').
  { unfold api_create. rewrite Hm.
    destruct (_populate_ticket_from_request sf empty_ticket tt req t1 t2 t3 m) as [[t|e] m0];
      [|reflexivity].
    destruct (insert_row (get_table st md) t db_now) as [tb t'].
    destruct (as_dict_val t'); apply get_put_other; exact Hne. }
  assert (B : get_table (fst (effect (api_update sf st m tt i req t1 t2 t3))) md'
              = get_table st md').
  { unfold api_update. rewrite Hm.
    destruct (get_or_404 (get_table st md) i) as [t|e]; [|reflexivity].
    destruct (_populate_ticket_from_request sf t tt req t1 t2 t3 m) as [[t'|e] m0];
      [|reflexivity].
    apply get_put_other; exact Hne. }
  assert (C : get_table (fst (effect (api_delete st m tt i))) md' = get_table st md').
  { unfold api_delete. rewrite Hm.
    destruct (get_or_404 (get_table st md) i); [|reflexivity].
    apply get_put_other; exact Hne. }
  tauto.
Qed.

Lemma routes_touch_one_table_witness :
  _get_ticket_model "ocr" = Ok OcrTicket /\ OmcTicket <> OcrTicket /\
  get_table (fst (effect (api_delete empty_store [] "ocr" 1))) OmcTicket
    = get_table empty_store OmcTicket.
Proof.
  split; [reflexivity|]. split; [discriminate|].
  exact (proj1 (proj2 (proj2
    (routes_touch_one_table (fun s => s) empty_store [] "ocr" OcrTicket OmcTicket 1
       (mk_request [] PNone None None None)
       (mk_datetime 2024 1 1 0 0 0 0 None) (mk_datetime 2024 1 1 0 0 0 0 None)
       (mk_datetime 2024 1 1 0 0 0 0 None) (mk_datetime 2024 1 1 0 0 0 0 None)
       eq_refl ltac:(discriminate))))).
Defined.

Lemma map_result_ok (l : list ticket) :
  Forall (fun t => row_ok t = true) l -> exists vs, map_result as_dict_val l = Ok vs.
Proof.
  induction l as [|t l IH]; simpl; intros H; [eexists; reflexivity|].
  inversion H as [|x l' Ht Hl Heq]; subst.
  destruct (as_dict_val_ok t Ht) as [v Ev]. destruct (IH Hl) as [vs Evs].
  rewrite Ev. simpl. rewrite Evs. eexists; reflexivity.
Qed.

(** X14: on a store that keeps its invariant, [GET /api/<type>/tickets]
    answers 200 exactly for the ticket types that resolve; it never fails
    while serialising a row. *)
Theorem api_list_succeeds (st : store) (tt : string) :
  store_ok st ->
  (exists v, api_list_get st tt = Ok (v, 200)) <-> (exists md, _get_ticket_model tt = Ok md).
Proof.
  intros Hok. unfold api_list_get.
  destruct (_get_ticket_model tt) as [md|e]; simpl.
  - split; [intros _; exists md; reflexivity|intros _].
    destruct (store_ok_get st md Hok) as [_ Hr].
    assert (Forall (fun t => row_ok t = true) (order_by_created_desc (rows (get_table st md))))
      as Hs.
    { rewrite Forall_forall in *. intros t Ht. apply Hr.
      apply (Permutation_in _ (proj1 (order_by_created_desc_spec _)) Ht). }
    destruct (map_result_ok _ Hs) as [vs Evs]. rewrite Evs. eexists; reflexivity.
  - split; intros [x H]; discriminate.
Qed.

Lemma api_list_succeeds_witness :
  let st := create_tables (mk_datetime 2024 1 1 0 0 0 0 None) (mk_datetime 2024 1 1 0 0 0 0 None)
              (mk_datetime 2024 1 1 0 0 0 0 None) empty_store in
  rows (get_table st OcrTicket) <> [] /\ store_ok st /\
  ((exists v, api_list_get st "OCR" = Ok (v, 200)) <->
   (exists md, _get_ticket_model "OCR" = Ok md)).
Proof.
  intros st.
  pose proof (create_tables_ok (mk_datetime 2024 1 1 0 0 0 0 None)
                (mk_datetime 2024 1 1 0 0 0 0 None) (mk_datetime 2024 1 1 0 0 0 0 None)
                empty_store empty_store_ok) as Hok.
  split; [subst st; vm_compute; discriminate|]. split; [exact Hok|].
  exact (api_list_succeeds st "OCR" Hok).
Defined.

(** ** Form submissions *)

Lemma dict_get_form (f : list (string * string)) (k : string) :
  (exists s, dict_get (app (map (fun kv => (fst kv, PStr (snd kv))) f) []) k = PStr s) \/
  dict_get (app (map (fun kv => (fst kv, PStr (snd kv))) f) []) k = PNone.
Proof.
  induction f as [|[k' s'] f IH]; simpl; [right; reflexivity|].
  destruct (String.eqb k k'); [left; exists s'; reflexivity|exact IH].
Qed.

Lemma form_value_coercible (v : pyval) :
  (exists s, v = PStr s) \/ v = PNone -> int_coercible v = true /\ ts_coercible v = true.
Proof. intros [[s ->]| ->]; split; reflexivity. Qed.

(** X15: a request without a JSON body (a plain form or a multipart
    upload, the only kind that carries files) never makes
    [_populate_ticket_from_request] raise: its payload values are all
    strings, which the coercions turn into a value or [None]. *)
Theorem form_request_populates (sf : string -> string) (t : ticket) (tt : string)
    (req : request) (t1 t2 t3 : datetime) (m : fs) :
  truthy (json req) = false ->
  exists t', fst (_populate_ticket_from_request sf t tt req t1 t2 t3 m) = Ok t'.
Proof.
  intros Hj.
  assert (request_data req = Ok (app (map (fun kv => (fst kv, PStr (snd kv))) (form req)) []))
    as Hd by (unfold request_data; rewrite Hj; reflexivity).
  apply (populate_ok sf t tt req t1 t2 t3 m _ Hd).
  unfold payload_coercible. cbn [map forallb].
  rewrite !(fun k => proj1 (form_value_coercible _ (dict_get_form (form req) k))),
          !(fun k => proj2 (form_value_coercible _ (dict_get_form (form req) k))).
  reflexivity.
Qed.

Lemma form_request_populates_witness :
  truthy PNone = false /\
  exists t',
    fst (_populate_ticket_from_request (fun s => s) empty_ticket "ocr"
           (mk_request [("camera_id", "[1]"); ("entry_time", "20240101")] PNone
              (Some (mk_upload "car.jpg" "JPEG")) None None)
           (mk_datetime 2024 1 1 0 0 0 0 None) (mk_datetime 2024 1 1 0 0 0 0 None)
           (mk_datetime 2024 1 1 0 0 0 0 None) []) = Ok t'.
Proof.
  split; [reflexivity|].
  exact (form_request_populates (fun s => s) empty_ticket "ocr"
           (mk_request [("camera_id", "[1]"); ("entry_time", "20240101")] PNone
              (Some (mk_upload "car.jpg" "JPEG")) None None)
           (mk_datetime 2024 1 1 0 0 0 0 None) (mk_datetime 2024 1 1 0 0 0 0 None)
           (mk_datetime 2024 1 1 0 0 0 0 None) [] eq_refl).
Defined.

(** ** The SQL dump *)


Lemma no_newline_app (x y : string) :
  no_newline (x ++ y) = no_newline x && no_newline y.
Proof. induction x as [|c x IH]; simpl; [reflexivity|]. rewrite IH. apply andb_assoc. Qed.

Lemma digit_char_not_newline (d : Z) : 0 <= d < 10 -> Ascii.eqb (digit_char d) newline = false.
Proof.
  intros H.
  assert (d = 0 \/ d = 1 \/ d = 2 \/ d = 3 \/ d = 4 \/ d = 5 \/ d = 6 \/ d = 7 \/ d = 8 \/ d = 9)
    as Hd by lia.
  repeat destruct Hd as [-> | Hd]; try reflexivity. subst; reflexivity.
Qed.

Lemma pad_no_newline (n : nat) (v : Z) : 0 <= v < 10 ^ Z.of_nat n -> no_newline (pad n v) = true.
Proof.
  revert v. induction n as [|n IH]; intros v Hv; [reflexivity|].
  assert (0 < 10 ^ Z.of_nat n) as Hp by (apply Z.pow_pos_nonneg; lia).
  assert (10 ^ Z.of_nat (S n) = 10 ^ Z.of_nat n * 10) as Hs
    by (rewrite Nat2Z.inj_succ, Z.pow_succ_r by lia; ring).
  rewrite Hs in Hv. cbn [pad no_newline].
  rewrite digit_char_not_newline.
  2: { split; [apply Z.div_pos; lia|]. apply Z.div_lt_upper_bound; lia. }
  rewrite IH by (apply Z.mod_pos_bound; lia). reflexivity.
Qed.

Lemma strftime_sql_no_newline (d : datetime) :
  valid_datetime d = true -> no_newline (strftime_sql d) = true.
Proof.
  intros Hv. pose proof (valid_bounds d Hv) as (By & Bm & Bd & Bh & Bi & Bs & _).
  unfold strftime_sql. rewrite !no_newline_app.
  rewrite !pad_no_newline by (simpl; lia). reflexivity.
Qed.

Lemma scan_lines_last (x cur : string) :
  no_newline x = true -> scan_lines (tail_with x (String newline EmptyString)) cur
                         = line_item (rev_str cur x).
Proof.
  unfold tail_with. revert cur. induction x as [|c x IH]; intros cur Hx.
  - simpl. rewrite app_nil_r. reflexivity.
  - cbn [no_newline] in Hx. apply andb_true_iff in Hx as [Hc Hx].
    apply negb_true_iff in Hc. cbn [append scan_lines]. rewrite Hc.
    rewrite IH by exact Hx. reflexivity.
Qed.

(** X16: the table definitions in the dump [generate_sql_dump] writes
    (at any valid clock reading) are those of [omc_ticket] and then of
    [ocr_ticket], and each lists exactly the columns of [TicketBase], in
    order, with [NOT NULL] exactly on the non-nullable ones, [DEFAULT
    CURRENT_TIMESTAMP] exactly on the one with the server default [now()]
    and the primary key [id]; the column names are, in order, the keys of
    [as_dict].  Column types and secondary indexes are not compared. *)
Theorem dump_schema_matches_ticket_base (now : datetime) :
  valid_datetime now = true ->
  dump_schema (generate_sql_dump now) = app (model_schema "omc_ticket") (model_schema "ocr_ticket") /\
  map col_name ticket_base_columns = map field_name all_fields /\
  (forall t d, as_dict t = Ok d -> map fst d = map col_name ticket_base_columns).
Proof.
  intros Hv. split; [|split].
  - pose proof (strftime_sql_no_newline now Hv) as Hn.
    unfold dump_schema, generate_sql_dump. cbv zeta.
    change (strftime_sql now ++ ?r)%string with (tail_with (strftime_sql now) r).
    cbv -[strftime_sql tail_with].
    rewrite scan_lines_last by exact Hn.
    reflexivity.
  - reflexivity.
  - intros t d. unfold as_dict.
    destruct (iso_or_none (entry_time t)); [|discriminate]; simpl.
    destruct (iso_or_none (exit_time t)); [|discriminate]; simpl.
    destruct (iso_or_none (created_at t)); [|discriminate]; simpl.
    destruct (iso_or_none (process_time_in t)); [|discriminate]; simpl.
    destruct (iso_or_none (process_time_out t)); [|discriminate]; simpl.
    intros H; injection H as <-. reflexivity.
Qed.

Lemma dump_schema_matches_ticket_base_witness :
  valid_datetime (mk_datetime 2026 10 16 9 30 0 0 None) = true /\
  dump_schema (generate_sql_dump (mk_datetime 2026 10 16 9 30 0 0 None))
    = app (model_schema "omc_ticket") (model_schema "ocr_ticket").
Proof.
  split; [reflexivity|].
  exact (proj1 (dump_schema_matches_ticket_base (mk_datetime 2026 10 16 9 30 0 0 None) eq_refl)).
Defined.
